(** * TherapyTune: audio feature extraction and request orchestration

    A shallow embedding of the two variants of the TherapyTune single-page
    application: the simple variant ([Simple], voice or text input, the
    state analysis feeding the playlist request directly) and the extended
    variant ([Extended], sliders, genre selection and a confirmation step).

    Conventions of the embedding.
    - A JavaScript number is an exact rational ([Q]); the rounding of
      double-precision arithmetic is not modelled.  [Math.sqrt] is the
      real square root, so [rms] is a real number.
    - A React component is its state record; an event handler is a function
      from the state of the render it was created in to the next state.
      An [await] splits a handler in two: the part before it runs in the
      step of the click, the part after it in the step that settles the
      pending operation.
    - What the platform decides (the result of [decodeAudioData], the
      outcome of a network call, the value [JSON.parse] returns for the
      response text) is carried by the event. *)

From Stdlib Require Import String Ascii DecimalString List Sorted Bool Arith ZArith QArith Qabs Qreals Reals Lia Psatz.
Import ListNotations.

Set Warnings "-register-all".

(** ** Audio feature extraction ([analyzeRecordedAudio]) *)

Module Audio.

Local Open Scope Q_scope.

(** [data[i]]: the samples of channel 0. *)
Definition get (data : list Q) (i : nat) : Q := nth i data 0.

(** The two comparisons of the loop, [x >= 0] and [x < 0]. *)
Definition geq0 (x : Q) : bool := Qle_bool 0 x.
Definition lt0 (x : Q) : bool := (Qnum x <? 0)%Z.

(** The two accumulators of the loop. *)
Record Acc : Type := mkAcc { sumSquares : Q; zeroCrossings : nat }.

(** The test on a sample [x] and its predecessor [p]:
      (x >= 0 && p < 0) || (x < 0 && p >= 0) *)
Definition crossing (x p : Q) : bool :=
  (geq0 x && lt0 p) || (lt0 x && geq0 p).

(** One iteration:
      sumSquares += data[i] * data[i];
      if (i > 0 && ((data[i] >= 0 && data[i-1] < 0)
                 || (data[i] < 0 && data[i-1] >= 0))) zeroCrossings++; *)
Definition body (data : list Q) (a : Acc) (i : nat) : Acc :=
  let s := sumSquares a + get data i * get data i in
  if (0 <? i)%nat && crossing (get data i) (get data (i - 1))
  then mkAcc s (S (zeroCrossings a))
  else mkAcc s (zeroCrossings a).

(** [for (let i = 0; i < data.length; i++) ...] from both accumulators at 0. *)
Definition loop (data : list Q) : Acc :=
  fold_left (body data) (seq 0 (length data)) (mkAcc 0 0).

(** [data.length] as a number. *)
Definition len (data : list Q) : Q := inject_Z (Z.of_nat (length data)).

(** The object handed to [setMetrics]. *)
Record Metrics : Type := mkMetrics { rms : R; zcr : Q }.

Definition analyze (data : list Q) : Metrics :=
  let a := loop data in
  mkMetrics (sqrt (Q2R (sumSquares a / len data)))
            (inject_Z (Z.of_nat (zeroCrossings a)) / len data).

(** *** The formulas of the specification *)



(** Σ data[i]^2. *)
Fixpoint sum_sq (data : list Q) : Q :=
  match data with
  | [] => 0
  | x :: t => x * x + sum_sq t
  end.

(** A four-sample clip used to run the definitions. *)
Definition clip : list Q := [1 # 2; -1 # 4; 0; -1].

End Audio.

(** ** JavaScript values *)

Module Js.

(** A string is its sequence of UTF-16 code units. *)
Definition jsstring : Type := list N.

Definition js (s : string) : jsstring :=
  map N_of_ascii (list_ascii_of_string s).

(** The code units [String.prototype.trim] removes: WhiteSpace and
    LineTerminator of ECMAScript. *)
Definition isWhiteSpace (c : N) : bool :=
  existsb (N.eqb c)
    [9; 10; 11; 12; 13; 32; 160; 5760; 8232; 8233; 8239; 8287; 12288; 65279]%N
  || ((8192 <=? c) && (c <=? 8202))%N.

Fixpoint trimStart (s : jsstring) : jsstring :=
  match s with
  | c :: t => if isWhiteSpace c then trimStart t else s
  | [] => []
  end.

Definition trim (s : jsstring) : jsstring :=
  rev (trimStart (rev (trimStart s))).

(** [!s] for a string [s]. *)
Definition isEmpty (s : jsstring) : bool :=
  match s with [] => true | _ => false end.

(** What a state variable or a parsed response can hold. *)
Inductive jsval : Type :=
| VUndefined
| VNull
| VBool (b : bool)
| VNum (q : Q)
| VStr (s : jsstring)
| VArr (items : list jsval)
| VObj (fields : list (string * jsval)).

Fixpoint lookup (k : string) (fields : list (string * jsval)) : jsval :=
  match fields with
  | [] => VUndefined
  | (k', v) :: rest => if String.eqb k k' then v else lookup k rest
  end.

(** [v.k] for one of the property names read by the application (none of
    them is a built-in property of a string or an array).  [None] is the
    TypeError of reading a property of [null] or [undefined]. *)
Definition getProp (v : jsval) (k : string) : option jsval :=
  match v with
  | VUndefined | VNull => None
  | VObj fields => Some (lookup k fields)
  | _ => Some VUndefined
  end.

(** The own properties copied by [{...v}]. *)
Definition indexKey (n : nat) : string :=
  NilEmpty.string_of_uint (Nat.to_uint n).

Definition indexed (items : list jsval) : list (string * jsval) :=
  combine (map indexKey (seq 0 (length items))) items.

Definition spread (v : jsval) : list (string * jsval) :=
  match v with
  | VObj fields => fields
  | VArr items => indexed items
  | VStr s => indexed (map (fun c => VStr [c]) s)
  | _ => []
  end.

(** [{...fields, k: v}] *)
Fixpoint setField (k : string) (v : jsval) (fields : list (string * jsval))
  : list (string * jsval) :=
  match fields with
  | [] => [(k, v)]
  | (k', v') :: rest =>
      if String.eqb k k' then (k, v) :: rest else (k', v') :: setField k v rest
  end.

(** The truth value of [v] in a condition. *)
Definition truthy (v : jsval) : bool :=
  match v with
  | VUndefined | VNull => false
  | VBool b => b
  | VNum q => negb (Qeq_bool q 0)
  | VStr s => negb (isEmpty s)
  | VArr _ | VObj _ => true
  end.

(** The outcome of [ai.models.generateContent] followed by
    [JSON.parse] of the text of the response. *)
Inductive AiOutcome : Type :=
| TransportFailure            (* the call rejects *)
| NoText                      (* resp.text is undefined or empty *)
| NotJson                     (* JSON.parse throws *)
| Json (v : jsval).           (* JSON.parse returns v *)

Definition failed (o : AiOutcome) : bool :=
  match o with Json _ => false | _ => true end.

(** [clientMetricsStr]: the empty string, or the sentence that embeds
    rms and zcr with [toFixed(digits)]. *)
Inductive Summary : Type :=
| NoSummary
| MetricsSummary (digits : nat) (m : Audio.Metrics).

Definition clientMetricsStr (digits : nat) (metrics : option Audio.Metrics)
  : Summary :=
  match metrics with
  | Some m => MetricsSummary digits m
  | None => NoSummary
  end.

(** What a step lets out of the application. *)
Inductive Effect (Req : Type) : Type :=
| Request (r : Req)
| Alert (msg : string)
| ConsoleError.

Arguments Request {Req} r.
Arguments Alert {Req} msg.
Arguments ConsoleError {Req}.

Definition isRequest {Req : Type} (e : Effect Req) : bool :=
  match e with Request _ => true | _ => false end.

(** Removal of the i-th element (a settled operation). *)
Fixpoint remove_nth {A : Type} (i : nat) (l : list A) : list A :=
  match l, i with
  | [], _ => []
  | _ :: t, O => t
  | x :: t, S j => x :: remove_nth j t
  end.

End Js.

(** ** The recorder hook ([useAudioRecorder]) *)

Module Recorder.

(** A recorded blob is known by a number; what decoding or encoding it
    gives is carried by the event that settles the operation. *)
Definition Blob : Type := nat.

Record state : Type := mk {
  isRecording : bool;
  audioBlob : option Blob;
  metrics : option Audio.Metrics;
  decoding : list Blob          (* runs of analyzeRecordedAudio not yet settled *)
}.

Definition init : state := mk false None None [].

Definition setIsRecording (b : bool) (r : state) : state :=
  mk b (audioBlob r) (metrics r) (decoding r).
Definition setAudioBlob (b : option Blob) (r : state) : state :=
  mk (isRecording r) b (metrics r) (decoding r).
Definition setMetrics (m : option Audio.Metrics) (r : state) : state :=
  mk (isRecording r) (audioBlob r) m (decoding r).
Definition setDecoding (d : list Blob) (r : state) : state :=
  mk (isRecording r) (audioBlob r) (metrics r) d.

(** [startRecording] once [getUserMedia] has resolved. *)
Definition started (r : state) : state := setIsRecording true r.

(** [stopRecording], with the [onstop] callback of the media recorder:
    the blob is stored and [analyzeRecordedAudio(blob)] is started. *)
Definition stopRecording (blob : Blob) (r : state) : state :=
  if isRecording r
  then setIsRecording false
         (setDecoding (decoding r ++ [blob]) (setAudioBlob (Some blob) r))
  else r.

(** An audio buffer has at least one sample frame. *)
Definition decodable (result : option (list Q)) : bool :=
  match result with Some [] => false | _ => true end.

(** [analyzeRecordedAudio] after [decodeAudioData] has settled: with the
    samples of channel 0 the metrics are stored; a rejection is caught
    and logged. *)
Definition decoded {Req : Type} (i : nat) (result : option (list Q))
    (r : state) : state * list (Js.Effect Req) :=
  let r1 := setDecoding (Js.remove_nth i (decoding r)) r in
  match result with
  | Some data => (setMetrics (Some (Audio.analyze data)) r1, [])
  | None => (r1, [Js.ConsoleError])
  end.

End Recorder.

(** ** The simple variant: voice or text, analysis then playlist *)

Module Simple.

Import Js.

Inductive ViewState : Type := INPUT | RECORDING | ANALYZING | PLAYLIST.
Inductive InputMode : Type := VOICE | TEXT.

Definition field (k : string) (v : jsval) : string * jsval := (k, v).

Definition HEALTHY_TARGET : jsval :=
  VObj [field "energy" (VNum 0); field "reality" (VNum (1 # 5));
        field "temporal" (VNum 0); field "repetition" (VNum 0);
        field "hedonic" (VNum (1 # 5))].

(** The two requests, by what their prompts embed. *)
Inductive Req : Type :=
| AnalyzeText (inputText : jsstring)
| AnalyzeVoice (clientMetrics : Summary) (base64Audio : jsstring)
| GeneratePlaylist (current target : jsval).

(** A run of [handleAnalyze] suspended at an [await].  The values the
    closure holds are those of the render of the click. *)
Inductive Cont : Type :=
| AwaitBase64 (metrics : option Audio.Metrics)
| AwaitAnalysis
| AwaitPlaylist.

(** The two [setTimeout] callbacks. *)
Inductive Timer : Type :=
| ShowAnalyzing               (* after 300 ms: setView("ANALYZING") *)
| ShowPlaylist.               (* after 1000 ms: setLoading(false); setView("PLAYLIST") *)

Record State : Type := mkState {
  view : ViewState;
  inputMode : InputMode;
  userState : jsval;            (* AxisState | null *)
  voiceMetrics : jsval;         (* VoiceMetrics | undefined *)
  playlist : jsval;             (* Song[] *)
  loading : bool;
  inputText : jsstring;
  recorder : Recorder.state;
  handlers : list Cont;         (* suspended runs of handleAnalyze *)
  timers : list Timer           (* pending timeouts, in the order they are due *)
}.

Definition init : State :=
  mkState INPUT VOICE VNull VUndefined (VArr []) false [] Recorder.init [] [].

Definition setView (v : ViewState) (s : State) : State :=
  mkState v (inputMode s) (userState s) (voiceMetrics s) (playlist s)
          (loading s) (inputText s) (recorder s) (handlers s) (timers s).
Definition setInputMode (m : InputMode) (s : State) : State :=
  mkState (view s) m (userState s) (voiceMetrics s) (playlist s)
          (loading s) (inputText s) (recorder s) (handlers s) (timers s).
Definition setUserState (u : jsval) (s : State) : State :=
  mkState (view s) (inputMode s) u (voiceMetrics s) (playlist s)
          (loading s) (inputText s) (recorder s) (handlers s) (timers s).
Definition setVoiceMetrics (m : jsval) (s : State) : State :=
  mkState (view s) (inputMode s) (userState s) m (playlist s)
          (loading s) (inputText s) (recorder s) (handlers s) (timers s).
Definition setPlaylist (l : jsval) (s : State) : State :=
  mkState (view s) (inputMode s) (userState s) (voiceMetrics s) l
          (loading s) (inputText s) (recorder s) (handlers s) (timers s).
Definition setLoading (b : bool) (s : State) : State :=
  mkState (view s) (inputMode s) (userState s) (voiceMetrics s) (playlist s)
          b (inputText s) (recorder s) (handlers s) (timers s).
Definition setInputText (t : jsstring) (s : State) : State :=
  mkState (view s) (inputMode s) (userState s) (voiceMetrics s) (playlist s)
          (loading s) t (recorder s) (handlers s) (timers s).
Definition setRecorder (r : Recorder.state) (s : State) : State :=
  mkState (view s) (inputMode s) (userState s) (voiceMetrics s) (playlist s)
          (loading s) (inputText s) r (handlers s) (timers s).
Definition setHandlers (h : list Cont) (s : State) : State :=
  mkState (view s) (inputMode s) (userState s) (voiceMetrics s) (playlist s)
          (loading s) (inputText s) (recorder s) h (timers s).
Definition setTimers (t : list Timer) (s : State) : State :=
  mkState (view s) (inputMode s) (userState s) (voiceMetrics s) (playlist s)
          (loading s) (inputText s) (recorder s) (handlers s) t.

Definition setTimeout (t : Timer) (s : State) : State :=
  setTimers (timers s ++ [t]) s.

Definition Out : Type := (State * list (Effect Req))%type.

(** *** [handleAnalyze] *)

(** Up to the first [await]. *)
Definition handleAnalyze (s : State) : Out :=
  let s1 := setTimeout ShowAnalyzing (setLoading true s) in
  match inputMode s, Recorder.audioBlob (recorder s) with
  | VOICE, Some _ =>
      (setHandlers (handlers s ++ [AwaitBase64 (Recorder.metrics (recorder s))]) s1,
       [])
  | _, _ =>
      (setHandlers (handlers s ++ [AwaitAnalysis]) s1,
       [Request (AnalyzeText (inputText s))])
  end.

(** The [catch] block. *)
Definition handleAnalyze_catch (s : State) : Out :=
  (setView INPUT (setLoading false s),
   [ConsoleError; Alert "Analysis failed. Please try again."]).

(** After [await blobToBase64(audioBlob)]. *)
Definition handleAnalyze_encoded (metrics : option Audio.Metrics)
    (result : option jsstring) (s : State) : Out :=
  match result with
  | Some base64Audio =>
      (setHandlers (handlers s ++ [AwaitAnalysis]) s,
       [Request (AnalyzeVoice (clientMetricsStr 3 metrics) base64Audio)])
  | None => handleAnalyze_catch s
  end.

(** The object literal built from [analysisResult]. *)
Definition currentState (analysisResult : jsval) : option jsval :=
  match getProp analysisResult "energy", getProp analysisResult "reality",
        getProp analysisResult "temporal", getProp analysisResult "repetition",
        getProp analysisResult "hedonic", getProp analysisResult "summary" with
  | Some e, Some r, Some t, Some p, Some h, Some m =>
      Some (VObj [field "energy" e; field "reality" r; field "temporal" t;
                  field "repetition" p; field "hedonic" h; field "summary" m])
  | _, _, _, _, _, _ => None
  end.

(** After the first [await ai.models.generateContent]. *)
Definition handleAnalyze_analysed (o : AiOutcome) (s : State) : Out :=
  match o with
  | Json analysisResult =>
      match currentState analysisResult,
            getProp analysisResult "voice_analysis" with
      | Some cur, Some va =>
          let s1 := setUserState cur s in
          let s2 := setVoiceMetrics (if truthy va then va else VUndefined) s1 in
          (setHandlers (handlers s ++ [AwaitPlaylist]) s2,
           [Request (GeneratePlaylist cur HEALTHY_TARGET)])
      | _, _ => handleAnalyze_catch s
      end
  | _ => handleAnalyze_catch s
  end.

(** After the second [await ai.models.generateContent]. *)
Definition handleAnalyze_generated (o : AiOutcome) (s : State) : Out :=
  match o with
  | Json playlistData =>
      match getProp playlistData "songs" with
      | Some songs => (setTimeout ShowPlaylist (setPlaylist songs s), [])
      | None => handleAnalyze_catch s
      end
  | _ => handleAnalyze_catch s
  end.

(** *** The rest of [App] *)

Definition fire (t : Timer) (s : State) : State :=
  match t with
  | ShowAnalyzing => setView ANALYZING s
  | ShowPlaylist => setView PLAYLIST (setLoading false s)
  end.

(** The onClick of "Start Over". *)
Definition startOver (s : State) : State :=
  setVoiceMetrics VUndefined
    (setRecorder (Recorder.setAudioBlob None (recorder s))
       (setInputText [] (setUserState VNull (setView INPUT s)))).

(** [startRecording]: the stream is granted, or the rejection is caught. *)
Definition startRecording (granted : bool) (s : State) : Out :=
  if granted
  then (setRecorder (Recorder.started (recorder s)) s, [])
  else (s, [ConsoleError;
            Alert "Could not access microphone. Please allow permissions."]).

(** What the user and the platform can do. *)
Inductive Event : Type :=
| SelectMode (m : InputMode)
| ChangeText (text : jsstring)          (* typing, or one of the example chips *)
| ClickRecord (granted : bool)
| ClickStop (blob : Recorder.Blob)
| ClickRecordAgain (granted : bool)
| ClickAnalyzeVoice
| ClickAnalyzeText
| ClickStartOver
| DecodeSettle (i : nat) (result : option (list Q))
| Base64Settle (i : nat) (result : option jsstring)
| AiSettle (i : nat) (o : AiOutcome)
| TimerFire.

(** The input view is rendered. *)
Definition inputView (s : State) : bool :=
  match view s with INPUT => negb (loading s) | _ => false end.

Definition voiceTab (s : State) : bool :=
  inputView s && match inputMode s with VOICE => true | TEXT => false end.

Definition textTab (s : State) : bool :=
  inputView s && match inputMode s with TEXT => true | VOICE => false end.

Definition hasBlob (s : State) : bool :=
  match Recorder.audioBlob (recorder s) with Some _ => true | None => false end.

(** The control of the event is rendered and not disabled, or the
    operation the event settles is pending.  For [ClickStartOver] this is
    the guard of the results view, [view === "PLAYLIST" && userState]:
    the content of that view also evaluates [playlist[0]] and
    [playlist.map], which throw when the stored playlist is not an array,
    so the guard is necessary for the button and not sufficient. *)
Definition enabled (ev : Event) (s : State) : bool :=
  match ev with
  | SelectMode _ => inputView s
  | ChangeText _ => textTab s
  | ClickRecord _ =>
      voiceTab s && negb (Recorder.isRecording (recorder s)) && negb (hasBlob s)
  | ClickStop _ => voiceTab s && Recorder.isRecording (recorder s)
  | ClickRecordAgain _ | ClickAnalyzeVoice =>
      voiceTab s && negb (Recorder.isRecording (recorder s)) && hasBlob s
  | ClickAnalyzeText => textTab s && negb (isEmpty (trim (inputText s)))
  | ClickStartOver =>
      match view s with PLAYLIST => truthy (userState s) | _ => false end
  | DecodeSettle i result =>
      Recorder.decodable result
      && match nth_error (Recorder.decoding (recorder s)) i with
         | Some _ => true | None => false end
  | Base64Settle i _ =>
      match nth_error (handlers s) i with
      | Some (AwaitBase64 _) => true | _ => false end
  | AiSettle i _ =>
      match nth_error (handlers s) i with
      | Some AwaitAnalysis | Some AwaitPlaylist => true | _ => false end
  | TimerFire => match timers s with [] => false | _ => true end
  end.

Definition dispatch (ev : Event) (s : State) : Out :=
  match ev with
  | SelectMode m => (setInputMode m s, [])
  | ChangeText text => (setInputText text s, [])
  | ClickRecord granted => startRecording granted s
  | ClickStop blob =>
      (setRecorder (Recorder.stopRecording blob (recorder s)) s, [])
  | ClickRecordAgain granted =>
      startRecording granted
        (setRecorder (Recorder.setAudioBlob None (recorder s)) s)
  | ClickAnalyzeVoice | ClickAnalyzeText => handleAnalyze s
  | ClickStartOver => (startOver s, [])
  | DecodeSettle i result =>
      let (r, out) := Recorder.decoded i result (recorder s) in
      (setRecorder r s, out)
  | Base64Settle i result =>
      match nth_error (handlers s) i with
      | Some (AwaitBase64 metrics) =>
          handleAnalyze_encoded metrics result
            (setHandlers (remove_nth i (handlers s)) s)
      | _ => (s, [])
      end
  | AiSettle i o =>
      match nth_error (handlers s) i with
      | Some AwaitAnalysis =>
          handleAnalyze_analysed o (setHandlers (remove_nth i (handlers s)) s)
      | Some AwaitPlaylist =>
          handleAnalyze_generated o (setHandlers (remove_nth i (handlers s)) s)
      | _ => (s, [])
      end
  | TimerFire =>
      match timers s with
      | t :: rest => (fire t (setTimers rest s), [])
      | [] => (s, [])
      end
  end.

(** One step: an event that is not enabled changes nothing. *)
Definition step (ev : Event) (s : State) : Out :=
  if enabled ev s then dispatch ev s else (s, []).

(** A run, with everything it lets out in order. *)
Fixpoint run (evs : list Event) (s : State) : Out :=
  match evs with
  | [] => (s, [])
  | ev :: rest =>
      let (s1, out1) := step ev s in
      let (s2, out2) := run rest s1 in
      (s2, out1 ++ out2)
  end.

Definition reachable (s : State) : Prop :=
  exists evs, fst (run evs init) = s.

(** The calls to the AI service that have not settled. *)
Definition isCall (c : Cont) : bool :=
  match c with AwaitBase64 _ => false | _ => true end.

Definition inFlight (s : State) : list Cont := filter isCall (handlers s).

Definition isShowPlaylist (t : Timer) : bool :=
  match t with ShowPlaylist => true | ShowAnalyzing => false end.

(** The invariant of the reachable states: at most one run of
    [handleAnalyze] is suspended, and only while [loading] is set; at most
    one [ShowPlaylist] timeout is pending, and only after the run that set
    it has finished with [loading] still set. *)
Definition Inv (s : State) : Prop :=
  (length (handlers s) <= 1)%nat
  /\ (handlers s <> [] -> loading s = true)
  /\ (length (filter isShowPlaylist (timers s)) <= 1)%nat
  /\ (filter isShowPlaylist (timers s) <> [] ->
      handlers s = [] /\ loading s = true).

End Simple.

(** ** The extended variant: sliders, genres, confirmation *)

Module Extended.

Import Js.

Inductive ViewState : Type := INPUT | ANALYZING | CONFIRMATION | PLAYLIST.
Inductive Tab : Type := SLIDERS | VOICE | TEXT.
Inductive Axis : Type := energy | reality | temporal | repetition | hedonic.

Definition axisName (a : Axis) : string :=
  match a with
  | energy => "energy" | reality => "reality" | temporal => "temporal"
  | repetition => "repetition" | hedonic => "hedonic"
  end.

Definition field (k : string) (v : jsval) : string * jsval := (k, v).

Definition HEALTHY_TARGET : jsval :=
  VObj [field "energy" (VNum 0); field "reality" (VNum (1 # 5));
        field "temporal" (VNum 0); field "repetition" (VNum 0);
        field "hedonic" (VNum (1 # 5))].

Definition INITIAL_STATE : jsval :=
  VObj [field "energy" (VNum 0); field "reality" (VNum 0);
        field "temporal" (VNum 0); field "repetition" (VNum 0);
        field "hedonic" (VNum 0); field "summary" (VStr (js "Neutral"))].

(** The ids of [GENRE_OPTIONS]. *)
Definition GENRE_OPTIONS : list string :=
  ["kpop"; "jpop"; "pop"; "classical"; "jazz"; "ambient"; "lofi"; "indie";
   "folk"; "rnb"; "hiphop"; "rock"; "electronic"; "edm"]%string.

(** The requests, by what their prompts embed. *)
Inductive Req : Type :=
| SuggestFromVoice (manualState : jsval) (clientMetrics : Summary)
                   (base64Audio : jsstring)
| SuggestFromText (manualState : jsval) (inputText : jsstring)
| GeneratePlaylist (finalState target : jsval)
                   (selectedGenres excludedGenres : list string).

(** A run of [handleAnalyzeContext] or [generatePlaylist] suspended at an
    [await]. *)
Inductive Cont : Type :=
| AwaitBase64 (manualState : jsval) (metrics : option Audio.Metrics)
| AwaitAnalysis
| AwaitPlaylist.

(** The state of [App]; [activeGraphAxis], which only selects the curve
    drawn in the playlist view, is left out. *)
Record State : Type := mkState {
  view : ViewState;
  activeTab : Tab;
  manualState : jsval;          (* AxisState *)
  aiSuggestion : jsval;         (* AiSuggestion | null *)
  playlistResult : jsval;       (* PlaylistResponse | null *)
  loading : bool;
  loadingMessage : string;
  inputText : jsstring;
  selectedGenres : list string;
  excludedGenres : list string;
  permissionError : bool;
  recorder : Recorder.state;
  handlers : list Cont
}.

Definition init : State :=
  mkState INPUT SLIDERS INITIAL_STATE VNull VNull false "Processing..." []
          [] [] false Recorder.init [].

Definition setView (v : ViewState) (s : State) : State :=
  mkState v (activeTab s) (manualState s) (aiSuggestion s) (playlistResult s)
          (loading s) (loadingMessage s) (inputText s) (selectedGenres s)
          (excludedGenres s) (permissionError s) (recorder s) (handlers s).
Definition setActiveTab (t : Tab) (s : State) : State :=
  mkState (view s) t (manualState s) (aiSuggestion s) (playlistResult s)
          (loading s) (loadingMessage s) (inputText s) (selectedGenres s)
          (excludedGenres s) (permissionError s) (recorder s) (handlers s).
Definition setManualState (m : jsval) (s : State) : State :=
  mkState (view s) (activeTab s) m (aiSuggestion s) (playlistResult s)
          (loading s) (loadingMessage s) (inputText s) (selectedGenres s)
          (excludedGenres s) (permissionError s) (recorder s) (handlers s).
Definition setAiSuggestion (a : jsval) (s : State) : State :=
  mkState (view s) (activeTab s) (manualState s) a (playlistResult s)
          (loading s) (loadingMessage s) (inputText s) (selectedGenres s)
          (excludedGenres s) (permissionError s) (recorder s) (handlers s).
Definition setPlaylistResult (r : jsval) (s : State) : State :=
  mkState (view s) (activeTab s) (manualState s) (aiSuggestion s) r
          (loading s) (loadingMessage s) (inputText s) (selectedGenres s)
          (excludedGenres s) (permissionError s) (recorder s) (handlers s).
Definition setLoading (b : bool) (s : State) : State :=
  mkState (view s) (activeTab s) (manualState s) (aiSuggestion s)
          (playlistResult s) b (loadingMessage s) (inputText s)
          (selectedGenres s) (excludedGenres s) (permissionError s)
          (recorder s) (handlers s).
Definition setLoadingMessage (m : string) (s : State) : State :=
  mkState (view s) (activeTab s) (manualState s) (aiSuggestion s)
          (playlistResult s) (loading s) m (inputText s) (selectedGenres s)
          (excludedGenres s) (permissionError s) (recorder s) (handlers s).
Definition setInputText (t : jsstring) (s : State) : State :=
  mkState (view s) (activeTab s) (manualState s) (aiSuggestion s)
          (playlistResult s) (loading s) (loadingMessage s) t
          (selectedGenres s) (excludedGenres s) (permissionError s)
          (recorder s) (handlers s).
Definition setSelectedGenres (g : list string) (s : State) : State :=
  mkState (view s) (activeTab s) (manualState s) (aiSuggestion s)
          (playlistResult s) (loading s) (loadingMessage s) (inputText s) g
          (excludedGenres s) (permissionError s) (recorder s) (handlers s).
Definition setExcludedGenres (g : list string) (s : State) : State :=
  mkState (view s) (activeTab s) (manualState s) (aiSuggestion s)
          (playlistResult s) (loading s) (loadingMessage s) (inputText s)
          (selectedGenres s) g (permissionError s) (recorder s) (handlers s).
Definition setPermissionError (b : bool) (s : State) : State :=
  mkState (view s) (activeTab s) (manualState s) (aiSuggestion s)
          (playlistResult s) (loading s) (loadingMessage s) (inputText s)
          (selectedGenres s) (excludedGenres s) b (recorder s) (handlers s).
Definition setRecorder (r : Recorder.state) (s : State) : State :=
  mkState (view s) (activeTab s) (manualState s) (aiSuggestion s)
          (playlistResult s) (loading s) (loadingMessage s) (inputText s)
          (selectedGenres s) (excludedGenres s) (permissionError s) r
          (handlers s).
Definition setHandlers (h : list Cont) (s : State) : State :=
  mkState (view s) (activeTab s) (manualState s) (aiSuggestion s)
          (playlistResult s) (loading s) (loadingMessage s) (inputText s)
          (selectedGenres s) (excludedGenres s) (permissionError s)
          (recorder s) h.

Definition Out : Type := (State * list (Effect Req))%type.

(** [handleSliderChange]: prev => ({ ...prev, [axis]: val }) *)
Definition handleSliderChange (axis : Axis) (val : Q) (s : State) : State :=
  setManualState
    (VObj (setField (axisName axis) (VNum val) (spread (manualState s)))) s.

(** The two onClick of [GenreSelector]. *)
Definition includes (g : string) (l : list string) : bool :=
  existsb (String.eqb g) l.

Definition without (g : string) (l : list string) : list string :=
  filter (fun x => negb (String.eqb x g)) l.

Definition toggleSelected (g : string) (s : State) : State :=
  if includes g (selectedGenres s)
  then setSelectedGenres (without g (selectedGenres s)) s
  else setExcludedGenres (without g (excludedGenres s))
         (setSelectedGenres (selectedGenres s ++ [g]) s).

Definition toggleExcluded (g : string) (s : State) : State :=
  if includes g (excludedGenres s)
  then setExcludedGenres (without g (excludedGenres s)) s
  else setSelectedGenres (without g (selectedGenres s))
         (setExcludedGenres (excludedGenres s ++ [g]) s).

(** *** [handleAnalyzeContext] *)

Definition handleAnalyzeContext (s : State) : Out :=
  let s1 := setView ANALYZING
              (setLoadingMessage "Analyzing your state..."
                 (setLoading true s)) in
  match activeTab s, Recorder.audioBlob (recorder s) with
  | VOICE, Some _ =>
      (setHandlers
         (handlers s
          ++ [AwaitBase64 (manualState s) (Recorder.metrics (recorder s))]) s1,
       [])
  | _, _ =>
      (setHandlers (handlers s ++ [AwaitAnalysis]) s1,
       [Request (SuggestFromText (manualState s) (inputText s))])
  end.

Definition handleAnalyzeContext_catch (s : State) : Out :=
  (setView INPUT (setLoading false s),
   [ConsoleError;
    Alert "Hmm, something went wrong with the analysis. Please try again."]).

(** After [await blobToBase64(audioBlob)]. *)
Definition handleAnalyzeContext_encoded (manual : jsval)
    (metrics : option Audio.Metrics) (result : option jsstring) (s : State)
  : Out :=
  match result with
  | Some base64Audio =>
      (setHandlers (handlers s ++ [AwaitAnalysis]) s,
       [Request (SuggestFromVoice manual (clientMetricsStr 2 metrics)
                                  base64Audio)])
  | None => handleAnalyzeContext_catch s
  end.

(** After [await ai.models.generateContent]. *)
Definition handleAnalyzeContext_analysed (o : AiOutcome) (s : State) : Out :=
  match o with
  | Json result =>
      (setView CONFIRMATION (setLoading false (setAiSuggestion result s)), [])
  | _ => handleAnalyzeContext_catch s
  end.

(** *** [generatePlaylist] *)

Definition generatePlaylist (finalState : jsval) (s : State) : Out :=
  let s1 := setView ANALYZING
              (setLoadingMessage "Curating your therapeutic journey..."
                 (setLoading true s)) in
  (setHandlers (handlers s ++ [AwaitPlaylist]) s1,
   [Request (GeneratePlaylist finalState HEALTHY_TARGET
                              (selectedGenres s) (excludedGenres s))]).

Definition generatePlaylist_catch (s : State) : Out :=
  (setView INPUT (setLoading false s),
   [ConsoleError;
    Alert "Hmm, something went wrong generating the playlist. Please try again."]).

Definition generatePlaylist_generated (o : AiOutcome) (s : State) : Out :=
  match o with
  | Json data =>
      (setView PLAYLIST (setLoading false (setPlaylistResult data s)), [])
  | _ => generatePlaylist_catch s
  end.

(** *** The rest of [App] *)

(** "Accept & Find Music" *)
Definition accept (s : State) : Out :=
  match getProp (aiSuggestion s) "suggested_state" with
  | Some suggested => generatePlaylist suggested (setManualState suggested s)
  | None => (s, [])
  end.

(** The onClick of "Start Over". *)
Definition startOver (s : State) : State :=
  setPlaylistResult VNull
    (setExcludedGenres []
       (setSelectedGenres []
          (setAiSuggestion VNull
             (setRecorder (Recorder.setAudioBlob None (recorder s))
                (setInputText [] (setView INPUT s)))))).

Definition startRecording (granted : bool) (s : State) : Out :=
  let s1 := setPermissionError false s in
  if granted
  then (setRecorder (Recorder.started (recorder s)) s1, [])
  else (setPermissionError true s1, [ConsoleError]).

Inductive Event : Type :=
| SelectTab (t : Tab)
| SliderChange (axis : Axis) (val : Q)
| ToggleGenre (g : string)
| ToggleExclude (g : string)
| ChangeText (text : jsstring)          (* typing, or an uploaded file *)
| ClickRecord (granted : bool)
| ClickStop (blob : Recorder.Blob)
| ClickRecordAgain (granted : bool)
| ClickCheckVoice
| ClickCheckText
| ClickFindMusic
| ClickAccept
| ClickKeep
| ClickStartOver
| DecodeSettle (i : nat) (result : option (list Q))
| Base64Settle (i : nat) (result : option jsstring)
| AiSettle (i : nat) (o : AiOutcome).

Definition inputView (s : State) : bool :=
  match view s with INPUT => true | _ => false end.

Definition onTab (t : Tab) (s : State) : bool :=
  inputView s
  && match t, activeTab s with
     | SLIDERS, SLIDERS | VOICE, VOICE | TEXT, TEXT => true
     | _, _ => false
     end.

Definition hasBlob (s : State) : bool :=
  match Recorder.audioBlob (recorder s) with Some _ => true | None => false end.

(** [canProceed = selectedGenres.length > 0] *)
Definition canProceed (s : State) : bool :=
  match selectedGenres s with [] => false | _ => true end.

(** A range input with min -1 and max 1 reports a value between them. *)
Definition sliderValue (val : Q) : bool :=
  Qle_bool (-1) val && Qle_bool val 1.

Definition confirmationView (s : State) : bool :=
  match view s with CONFIRMATION => truthy (aiSuggestion s) | _ => false end.

Definition enabled (ev : Event) (s : State) : bool :=
  match ev with
  | SelectTab _ => inputView s
  | SliderChange _ val => onTab SLIDERS s && sliderValue val
  | ToggleGenre g | ToggleExclude g => inputView s && includes g GENRE_OPTIONS
  | ChangeText _ => onTab TEXT s
  | ClickRecord _ =>
      onTab VOICE s && negb (Recorder.isRecording (recorder s))
      && negb (hasBlob s)
  | ClickStop _ => onTab VOICE s && Recorder.isRecording (recorder s)
  | ClickRecordAgain _ =>
      onTab VOICE s && negb (Recorder.isRecording (recorder s)) && hasBlob s
  | ClickCheckVoice =>
      onTab VOICE s && negb (Recorder.isRecording (recorder s)) && hasBlob s
      && canProceed s
  | ClickCheckText =>
      onTab TEXT s && negb (isEmpty (trim (inputText s))) && canProceed s
  | ClickFindMusic => onTab SLIDERS s && canProceed s
  | ClickAccept | ClickKeep => confirmationView s
  | ClickStartOver =>
      match view s with PLAYLIST => truthy (playlistResult s) | _ => false end
  | DecodeSettle i result =>
      Recorder.decodable result
      && match nth_error (Recorder.decoding (recorder s)) i with
         | Some _ => true | None => false end
  | Base64Settle i _ =>
      match nth_error (handlers s) i with
      | Some (AwaitBase64 _ _) => true | _ => false end
  | AiSettle i _ =>
      match nth_error (handlers s) i with
      | Some AwaitAnalysis | Some AwaitPlaylist => true | _ => false end
  end.

Definition dispatch (ev : Event) (s : State) : Out :=
  match ev with
  | SelectTab t => (setActiveTab t s, [])
  | SliderChange axis val => (handleSliderChange axis val s, [])
  | ToggleGenre g => (toggleSelected g s, [])
  | ToggleExclude g => (toggleExcluded g s, [])
  | ChangeText text => (setInputText text s, [])
  | ClickRecord granted => startRecording granted s
  | ClickStop blob =>
      (setRecorder (Recorder.stopRecording blob (recorder s)) s, [])
  | ClickRecordAgain granted =>
      startRecording granted
        (setRecorder (Recorder.setAudioBlob None (recorder s)) s)
  | ClickCheckVoice | ClickCheckText => handleAnalyzeContext s
  | ClickFindMusic | ClickKeep => generatePlaylist (manualState s) s
  | ClickAccept => accept s
  | ClickStartOver => (startOver s, [])
  | DecodeSettle i result =>
      let (r, out) := Recorder.decoded i result (recorder s) in
      (setRecorder r s, out)
  | Base64Settle i result =>
      match nth_error (handlers s) i with
      | Some (AwaitBase64 manual metrics) =>
          handleAnalyzeContext_encoded manual metrics result
            (setHandlers (remove_nth i (handlers s)) s)
      | _ => (s, [])
      end
  | AiSettle i o =>
      match nth_error (handlers s) i with
      | Some AwaitAnalysis =>
          handleAnalyzeContext_analysed o
            (setHandlers (remove_nth i (handlers s)) s)
      | Some AwaitPlaylist =>
          generatePlaylist_generated o
            (setHandlers (remove_nth i (handlers s)) s)
      | _ => (s, [])
      end
  end.

Definition step (ev : Event) (s : State) : Out :=
  if enabled ev s then dispatch ev s else (s, []).

Fixpoint run (evs : list Event) (s : State) : Out :=
  match evs with
  | [] => (s, [])
  | ev :: rest =>
      let (s1, out1) := step ev s in
      let (s2, out2) := run rest s1 in
      (s2, out1 ++ out2)
  end.

Definition reachable (s : State) : Prop :=
  exists evs, fst (run evs init) = s.

(** The calls to the AI service that have not settled. *)
Definition isCall (c : Cont) : bool :=
  match c with AwaitBase64 _ _ => false | _ => true end.

Definition inFlight (s : State) : list Cont := filter isCall (handlers s).

(** The invariant of the reachable states: at most one handler is
    suspended, and only while the loading view is shown. *)
Definition Inv (s : State) : Prop :=
  (length (handlers s) <= 1)%nat
  /\ (handlers s <> [] -> view s = ANALYZING).

End Extended.

(** ** Scenarios *)

Module Scenario.

Import Js.

Definition axes (e r t p h : Q) : list (string * jsval) :=
  [("energy"%string, VNum e); ("reality"%string, VNum r);
   ("temporal"%string, VNum t); ("repetition"%string, VNum p);
   ("hedonic"%string, VNum h)].

(** A state-analysis response inside the contract. *)
Definition depleted : jsval :=
  VObj (axes (-7 # 10) (-1 # 10) (-2 # 10) (1 # 10) (-6 # 10)
        ++ [("summary"%string, VStr (js "Depleted"))]).

(** A state-analysis response with an axis outside [-1,1]. *)
Definition overdriven : jsval :=
  VObj (axes (3 # 2) 0 0 0 (-13 # 10)
        ++ [("summary"%string, VStr (js "Wired"))]).

(** A suggestion of the extended variant with an axis outside [-1,1]. *)
Definition overdrivenSuggestion : jsval :=
  VObj [("suggested_state"%string, VObj (axes (3 # 2) 0 0 0 (-13 # 10)));
        ("reasoning"%string, VStr (js "You sound tense"))].

Definition song (title artist : string) (e r t p h : Q) : jsval :=
  VObj [("title"%string, VStr (js title)); ("artist"%string, VStr (js artist));
        ("target_state"%string, VObj (axes e r t p h));
        ("therapeutic_note"%string, VStr (js "Meets you where you are"));
        ("color_hex"%string, VStr (js "#334155"))].

(** A playlist response. *)
Definition journey : jsval :=
  VObj [("songs"%string,
         VArr [song "One" "A" (-7 # 10) (-1 # 10) (-2 # 10) (1 # 10) (-6 # 10);
               song "Two" "B" (-5 # 10) 0 (-1 # 10) (1 # 10) (-4 # 10);
               song "Three" "C" (-3 # 10) (1 # 10) 0 0 (-2 # 10);
               song "Four" "D" (-1 # 10) (2 # 10) 0 0 0;
               song "Five" "E" 0 (2 # 10) 0 0 (2 # 10)])].

Definition feeling : jsstring := js "I feel empty and can't get out of bed".

(** Simple variant, text mode: the analysis has succeeded and the playlist
    request is pending. *)
Definition textUntilPlaylistCall (analysis : jsval) : list Simple.Event :=
  [Simple.SelectMode Simple.TEXT; Simple.ChangeText feeling;
   Simple.ClickAnalyzeText; Simple.TimerFire;
   Simple.AiSettle 0 (Json analysis)].

(** Simple variant, text mode: a whole session up to the playlist view. *)
Definition textSession : list Simple.Event :=
  textUntilPlaylistCall depleted
  ++ [Simple.AiSettle 0 (Json journey); Simple.TimerFire].


(** Extended variant: the sliders are moved and a genre is chosen. *)
Definition slidersSet : list Extended.Event :=
  [Extended.SliderChange Extended.energy (-7 # 10);
   Extended.ToggleGenre "jazz"].

(** Extended variant: a session from the sliders up to the playlist view. *)
Definition slidersSession : list Extended.Event :=
  slidersSet ++ [Extended.ClickFindMusic; Extended.AiSettle 0 (Json journey)].

(** Extended variant: a journal text is checked and the suggestion, with
    an axis outside [-1,1], is accepted. *)
Definition acceptOverdriven : list Extended.Event :=
  [Extended.ToggleGenre "jazz"; Extended.SelectTab Extended.TEXT;
   Extended.ChangeText feeling; Extended.ClickCheckText;
   Extended.AiSettle 0 (Json overdrivenSuggestion); Extended.ClickAccept].

(** The states these runs end in. *)
Definition blankText : Simple.State :=
  Simple.setInputText [32; 9; 10; 160]%N
    (Simple.setInputMode Simple.TEXT Simple.init).

Definition playlistPending : Simple.State :=
  fst (Simple.run (textUntilPlaylistCall depleted) Simple.init).

Definition playlistShown : Simple.State :=
  fst (Simple.run textSession Simple.init).

Definition recordedOnce : list Simple.Event :=
  [Simple.ClickRecord true; Simple.ClickStop 1%nat].


Definition slidersReady : Extended.State :=
  fst (Extended.run slidersSet Extended.init).

End Scenario.

(** ** Statements of the specification that the code is checked against *)

Module Stated.

Import Js.

(** An axis value inside the closed interval [-1,1]. *)
Definition inRange (v : jsval) : bool :=
  match v with
  | VNum q => Qle_bool (-1) q && Qle_bool q 1
  | _ => false
  end.

Definition axesInRange (st : jsval) : bool :=
  forallb (fun a => match getProp st (Extended.axisName a) with
                    | Some v => inRange v
                    | None => false
                    end)
          [Extended.energy; Extended.reality; Extended.temporal;
           Extended.repetition; Extended.hedonic].

(** "No partial session state committed": after a failed call the view
    is INPUT, loading is cleared, and no state of the session is stored. *)
Definition failure_commits_nothing : Prop :=
  forall (evs : list Simple.Event) (i : nat) (o : AiOutcome),
    let s := fst (Simple.run evs Simple.init) in
    Simple.view s = Simple.ANALYZING ->
    Simple.enabled (Simple.AiSettle i o) s = true ->
    failed o = true ->
    let s' := fst (Simple.step (Simple.AiSettle i o) s) in
    Simple.view s' = Simple.INPUT
    /\ Simple.loading s' = false
    /\ Simple.userState s' = VNull
    /\ Simple.playlist s' = Simple.playlist s.

(** "Every axis value of the stored state lies in [-1,1]". *)
Definition stored_axes_in_range : Prop :=
  (forall evs : list Simple.Event,
      let s := fst (Simple.run evs Simple.init) in
      Simple.userState s = VNull \/ axesInRange (Simple.userState s) = true)
  /\ (forall evs : list Extended.Event,
         let s := fst (Extended.run evs Extended.init) in
         axesInRange (Extended.manualState s) = true).

(** "Start Over clears all session-derived state". *)
Definition start_over_clears_simple : Prop :=
  forall evs : list Simple.Event,
    let s := fst (Simple.run evs Simple.init) in
    Simple.enabled Simple.ClickStartOver s = true ->
    let s' := fst (Simple.step Simple.ClickStartOver s) in
    Simple.view s' = Simple.INPUT
    /\ Simple.userState s' = VNull
    /\ Recorder.metrics (Simple.recorder s') = None
    /\ Simple.playlist s' = VArr []
    /\ Simple.inputText s' = []
    /\ Recorder.audioBlob (Simple.recorder s') = None.

Definition start_over_clears_extended : Prop :=
  forall evs : list Extended.Event,
    let s := fst (Extended.run evs Extended.init) in
    Extended.enabled Extended.ClickStartOver s = true ->
    let s' := fst (Extended.step Extended.ClickStartOver s) in
    Extended.view s' = Extended.INPUT
    /\ Extended.manualState s' = Extended.INITIAL_STATE
    /\ Recorder.metrics (Extended.recorder s') = None
    /\ Extended.playlistResult s' = VNull
    /\ Extended.inputText s' = []
    /\ Recorder.audioBlob (Extended.recorder s') = None.


End Stated.

(** ** [blobToBase64] *)

Module DataUrl.

Import Js.

Definition comma : N := 44.

(** [s.split(sep)] for a separator of one code unit. *)
Fixpoint split (sep : N) (s : jsstring) : list jsstring :=
  match s with
  | [] => [[]]
  | c :: t =>
      if N.eqb c sep then [] :: split sep t
      else match split sep t with
           | part :: parts => (c :: part) :: parts
           | [] => [[c]]
           end
  end.

Definition free (sep : N) (s : jsstring) : bool :=
  forallb (fun c => negb (N.eqb c sep)) s.

(** The [onloadend] callback: with a string in [reader.result] the promise
    resolves with [reader.result.split(',')[1]]; otherwise it rejects
    ([None]). *)
Definition blobToBase64 (result : option jsstring) : option jsval :=
  match result with
  | Some url =>
      Some (match nth_error (split comma url) 1 with
            | Some part => VStr part
            | None => VUndefined
            end)
  | None => None
  end.

End DataUrl.

(** ** [ISOExplanation]: the extreme axis and the text chosen from it *)

Module Insight.

Import Js.

Record Extreme : Type := mkExtreme { axis : string; val : Q }.

Definition gt (x y : Q) : bool := negb (Qle_bool x y).
Definition lt (x y : Q) : bool := negb (Qle_bool y x).

(** entry[0] !== 'summary' && typeof entry[1] === 'number' *)
Definition isAxisEntry (entry : string * jsval) : bool :=
  negb (String.eqb (fst entry) "summary")
  && match snd entry with VNum _ => true | _ => false end.

(** The reducer:
      (max, [key, val]) =>
        Math.abs(val) > Math.abs(max.val) ? { axis: key, val } : max
    (the entries that reach it are numbers). *)
Definition pick (max : Extreme) (entry : string * jsval) : Extreme :=
  match snd entry with
  | VNum v => if gt (Qabs v) (Qabs (val max)) then mkExtreme (fst entry) v
              else max
  | _ => max
  end.

(** [Object.entries(initialState).filter(...).reduce(...)]; [None] is the
    TypeError of [Object.entries] on null or undefined. *)
Definition extremeAxis (initialState : jsval) : option Extreme :=
  match initialState with
  | VUndefined | VNull => None
  | _ => Some (fold_left pick (filter isAxisEntry (spread initialState))
                         (mkExtreme "energy" 0))
  end.

(** The three texts of [getInsightText], by their titles. *)
Inductive Text : Type :=
| StartingLow                 (* "Why we're starting low" *)
| EasingDown                  (* "Why we're easing down" *)
| FineTuning.                 (* "Fine-tuning your balance" *)

Definition getInsightText (extreme : Extreme) : Text :=
  if lt (val extreme) (-4 # 10) then StartingLow
  else if gt (val extreme) (4 # 10) then EasingDown
  else FineTuning.

End Insight.

(** ** [JourneyGraph]: where the points are drawn *)

Module Graph.

Local Open Scope Q_scope.

(** The canvas is 500 by 200. *)
Definition w : Q := 500.
Definition h : Q := 200.
Definition padding : Q := 40.
Definition graphW : Q := w - padding * 2.
Definition graphH : Q := h - padding * 2.


(** const getY = (val) => padding + graphH * (1 - (val + 1) / 2) *)
Definition getY (val : Q) : Q := padding + graphH * (1 - (val + 1) / 2).

(** padding + graphW * ((i + 1) / (songs.length + 1)) *)
Definition songX (n i : nat) : Q :=
  padding + graphW * (inject_Z (Z.of_nat i + 1) / inject_Z (Z.of_nat n + 1)).

Record Point : Type := mkPoint { x : Q; y : Q }.

(** [songs.map((song, i) => ...)] from index [i] on, [n] being
    [songs.length]; a song is given by its value on the active axis. *)
Fixpoint songPoints (n i : nat) (songs : list Q) : list Point :=
  match songs with
  | [] => []
  | v :: rest => mkPoint (songX n i) (getY v) :: songPoints n (S i) rest
  end.

Definition points (initial target : Q) (songs : list Q) : list Point :=
  mkPoint padding (getY initial)
  :: songPoints (length songs) 0 songs
  ++ [mkPoint (w - padding) (getY target)].

End Graph.

(** ** What holds of the reachable states *)

Module Reach.

Import Js.

(** Extended variant: the loading view is shown, and [loading] is set,
    exactly while a handler is suspended. *)
Definition Shown (s : Extended.State) : Prop :=
  (length (Extended.handlers s) <= 1)%nat
  /\ (Extended.handlers s = [] ->
      Extended.view s <> Extended.ANALYZING /\ Extended.loading s = false)
  /\ (Extended.handlers s <> [] ->
      Extended.view s = Extended.ANALYZING /\ Extended.loading s = true).

(** Extended variant: the two genre lists. *)
Definition GenresOk (s : Extended.State) : Prop :=
  NoDup (Extended.selectedGenres s)
  /\ NoDup (Extended.excludedGenres s)
  /\ (forall g, In g (Extended.selectedGenres s) ->
                ~ In g (Extended.excludedGenres s))
  /\ (forall g, In g (Extended.selectedGenres s)
                \/ In g (Extended.excludedGenres s) ->
                In g Extended.GENRE_OPTIONS).

(** Extended variant: the slider state is an object whose five axes are
    numbers of [-1,1]. *)
Definition AxesSet (m : jsval) : Prop :=
  exists fields,
    m = VObj fields
    /\ forall a, exists q,
        lookup (Extended.axisName a) fields = VNum q
        /\ (-1 <= q <= 1)%Q.

(** Extended variant: a view whose content is guarded by a falsy value. *)
Definition Blank (v : Extended.ViewState) (s : Extended.State) : Prop :=
  Extended.handlers s = []
  /\ Extended.view s = v
  /\ ((v = Extended.CONFIRMATION
       /\ truthy (Extended.aiSuggestion s) = false)
      \/ (v = Extended.PLAYLIST
          /\ truthy (Extended.playlistResult s) = false)).

Definition isAccept (ev : Extended.Event) : bool :=
  match ev with Extended.ClickAccept => true | _ => false end.

(** The events of the user, as opposed to those of the platform. *)
Definition isUserEvent (ev : Extended.Event) : bool :=
  match ev with
  | Extended.DecodeSettle _ _ | Extended.Base64Settle _ _
  | Extended.AiSettle _ _ => false
  | _ => true
  end.

(** Simple variant: [loading] is set only while a run of [handleAnalyze]
    is suspended or its last timeout is pending. *)
Definition Busy (s : Simple.State) : Prop :=
  Simple.Inv s
  /\ Simple.view s <> Simple.RECORDING
  /\ (Simple.loading s = true ->
      Simple.handlers s <> []
      \/ filter Simple.isShowPlaylist (Simple.timers s) <> []).



(** Simple variant: the loading view with nothing pending. *)
Definition Stuck (s : Simple.State) : Prop :=
  Simple.view s = Simple.ANALYZING
  /\ Simple.loading s = false
  /\ Simple.handlers s = []
  /\ Simple.timers s = [].

Definition isSimpleUserEvent (ev : Simple.Event) : bool :=
  match ev with
  | Simple.DecodeSettle _ _ | Simple.Base64Settle _ _ | Simple.AiSettle _ _
  | Simple.TimerFire => false
  | _ => true
  end.

Definition isDecodeSettle (ev : Simple.Event) : bool :=
  match ev with Simple.DecodeSettle _ _ => true | _ => false end.

(** Simple variant: the requests of a run, by kind. *)
Definition isAnalysisReq (e : Effect Simple.Req) : bool :=
  match e with
  | Request (Simple.AnalyzeText _) | Request (Simple.AnalyzeVoice _ _) => true
  | _ => false
  end.

Definition isPlaylistReq (e : Effect Simple.Req) : bool :=
  match e with
  | Request (Simple.GeneratePlaylist _ _) => true
  | _ => false
  end.

Definition analyses (out : list (Effect Simple.Req)) : nat :=
  length (filter isAnalysisReq out).

Definition playlists (out : list (Effect Simple.Req)) : nat :=
  length (filter isPlaylistReq out).

(** The state analyses awaited in a state. *)
Definition awaited (s : Simple.State) : nat :=
  length (filter (fun c => match c with Simple.AwaitAnalysis => true
                                   | _ => false end)
                 (Simple.handlers s)).

End Reach.

(** * Properties *)

(** ** The loop of [analyzeRecordedAudio] *)

Section AudioLoop.

Import Audio.
Local Open Scope Q_scope.




Lemma sumSquares_fold (data : list Q) (l : list nat) (a : Acc) :
  sumSquares (fold_left (body data) l a)
  == sumSquares a + sum_sq (map (get data) l).
Proof.
  revert a. induction l as [|i l IH]; intros a; simpl.
  - ring.
  - rewrite IH. unfold body.
    destruct ((0 <? i)%nat && _); simpl; ring.
Qed.

Lemma map_get_seq (data : list Q) :
  map (get data) (seq 0 (length data)) = data.
Proof.
  unfold get. induction data as [|x t IH]; simpl; [reflexivity|].
  f_equal. rewrite <- seq_shift, map_map. exact IH.
Qed.


Lemma loop_sumSquares (data : list Q) :
  sumSquares (loop data) == sum_sq data.
Proof.
  unfold loop. rewrite sumSquares_fold, map_get_seq. simpl. ring.
Qed.


Lemma len_pos (data : list Q) : (0 < length data)%nat -> 0 < len data.
Proof.
  intros H. unfold len. change 0 with (inject_Z 0).
  rewrite <- Zlt_Qlt. lia.
Qed.

End AudioLoop.

(** ** The mean of the squares *)

Section AudioMean.

Import Audio.
Local Open Scope Q_scope.

Lemma sum_sq_nonneg (data : list Q) : 0 <= sum_sq data.
Proof.
  induction data as [|x t IH]; simpl; [lra|].
  assert (0 <= x * x) by nra. lra.
Qed.

Lemma sum_sq_le_len (data : list Q) :
  (forall x, In x data -> -1 <= x <= 1) -> sum_sq data <= len data.
Proof.
  unfold len. induction data as [|x t IH]; intros H.
  - apply Qle_refl.
  - cbn [sum_sq length]. rewrite Nat2Z.inj_succ, <- Z.add_1_l, inject_Z_plus.
    assert (Hx : -1 <= x <= 1) by (apply H; now left).
    assert (Ht : sum_sq t <= inject_Z (Z.of_nat (length t)))
      by (apply IH; intros y Hy; apply H; now right).
    assert (x * x <= 1) by nra.
    change (inject_Z 1) with 1. lra.
Qed.

Lemma sum_sq_zero (data : list Q) :
  sum_sq data == 0 <-> (forall x, In x data -> x == 0).
Proof.
  induction data as [|x t IH]; simpl.
  - split; [intros _ y []|reflexivity].
  - pose proof (sum_sq_nonneg t) as Ht.
    split.
    + intros H0.
      assert (Hxx : 0 <= x * x) by nra.
      assert (Hx0 : x * x == 0) by lra.
      assert (Ht0 : sum_sq t == 0) by lra.
      intros y [<-|Hy].
      * apply Qmult_integral in Hx0. tauto.
      * now apply IH.
    + intros H.
      assert (Hx : x == 0) by (apply H; now left).
      assert (Ht0 : sum_sq t == 0) by (apply IH; intros y Hy; apply H; now right).
      rewrite Hx, Ht0. ring.
Qed.

Lemma Q2R_len (data : list Q) : Q2R (len data) = INR (length data).
Proof.
  unfold len, Q2R. simpl. rewrite INR_IZR_INZ. lra.
Qed.

(** The argument of [Math.sqrt], as a real number. *)
Lemma mean_square_real (data : list Q) :
  (0 < length data)%nat ->
  Q2R (sumSquares (loop data) / len data)
  = (Q2R (sum_sq data) / INR (length data))%R.
Proof.
  intros HN. pose proof (len_pos data HN) as Hl.
  rewrite <- Q2R_len. unfold Rdiv. rewrite <- Q2R_inv by lra.
  rewrite <- Q2R_mult. apply Qeq_eqR.
  rewrite loop_sumSquares. reflexivity.
Qed.

Lemma mean_square_bounds (data : list Q) :
  (0 < length data)%nat ->
  (forall x, In x data -> -1 <= x <= 1) ->
  0 <= sum_sq data / len data <= 1.
Proof.
  intros HN H. pose proof (len_pos data HN) as Hl.
  pose proof (sum_sq_nonneg data) as H0.
  pose proof (sum_sq_le_len data H) as H1.
  split.
  - apply Qle_shift_div_l; [assumption|lra].
  - apply Qle_shift_div_r; [assumption|lra].
Qed.

End AudioMean.

Section AudioClaims.

Import Audio.
Local Open Scope Q_scope.

Lemma rms_mean (data : list Q) :
  rms (analyze data) = sqrt (Q2R (sum_sq data / len data)).
Proof.
  unfold analyze. cbn [rms]. f_equal. apply Qeq_eqR.
  rewrite loop_sumSquares. reflexivity.
Qed.

Lemma mean_zero (data : list Q) :
  (0 < length data)%nat ->
  (sum_sq data / len data == 0 <-> sum_sq data == 0).
Proof.
  intros HN. pose proof (len_pos data HN) as Hl.
  split; intros H.
  - assert (E : sum_sq data == (sum_sq data / len data) * len data)
      by (field; lra).
    rewrite E, H. ring.
  - rewrite H. field. lra.
Qed.





(** C3: for a sample array of length N > 0 with every value in [-1,1] the
    computed rms is sqrt((Σ data[i]^2) / N); it lies in [0,1], and it is 0
    exactly when every sample is 0. *)
Theorem rms_root_mean_square (data : list Q)
    (HN : (0 < length data)%nat)
    (Hrange : forall x, In x data -> -1 <= x <= 1) :
  rms (analyze data) = sqrt (Q2R (sum_sq data) / INR (length data))
  /\ (0 <= rms (analyze data) <= 1)%R
  /\ (rms (analyze data) = 0%R <-> (forall x, In x data -> x == 0)).
Proof.
  split; [|split].
  - unfold analyze. cbn [rms]. now rewrite mean_square_real.
  - rewrite rms_mean.
    destruct (mean_square_bounds data HN Hrange) as [H0 H1].
    apply Qle_Rle in H0, H1. rewrite RMicromega.Q2R_0 in H0.
    rewrite RMicromega.Q2R_1 in H1.
    split; [apply sqrt_pos|].
    rewrite <- sqrt_1. now apply sqrt_le_1_alt.
  - rewrite rms_mean, <- sum_sq_zero, <- (mean_zero data HN).
    destruct (mean_square_bounds data HN Hrange) as [H0 _].
    apply Qle_Rle in H0. rewrite RMicromega.Q2R_0 in H0.
    split; intros H.
    + apply sqrt_eq_0 in H; [|assumption].
      apply eqR_Qeq. now rewrite RMicromega.Q2R_0.
    + apply Qeq_eqR in H. rewrite RMicromega.Q2R_0 in H.
      rewrite H. apply sqrt_0.
Qed.

Lemma rms_root_mean_square_witness :
  (0 <= rms (analyze clip) <= 1)%R.
Proof.
  apply (rms_root_mean_square clip).
  - simpl. lia.
  - intros x Hx. simpl in Hx.
    destruct Hx as [<-|[<-|[<-|[<-|[]]]]]; split; discriminate.
Defined.

End AudioClaims.

(** ** Invariants of the two state machines *)

Section SimpleInvariant.

Import Js Simple.

Lemma simple_init_inv : Inv init.
Proof.
  unfold Inv, init. simpl. repeat split; auto; congruence.
Qed.

(** With at most one suspended run, the one that settles is the first. *)
Lemma nth_error_single {A : Type} (l : list A) (i : nat) (x : A) :
  (length l <= 1)%nat -> nth_error l i = Some x -> i = 0%nat /\ l = [x].
Proof.
  destruct l as [|a [|b l]]; simpl; intros Hl Hn.
  - destruct i; discriminate.
  - destruct i as [|i]; simpl in Hn.
    + inversion Hn. auto.
    + destruct i; discriminate.
  - lia.
Qed.

Lemma inputView_idle (s : State) :
  Inv s -> inputView s = true ->
  handlers s = [] /\ filter isShowPlaylist (timers s) = [] /\ loading s = false.
Proof.
  intros (Ha & Hb & Hc & Hd) Hv. unfold inputView in Hv.
  destruct (view s); try discriminate.
  destruct (loading s) eqn:L; [discriminate|].
  repeat split.
  - destruct (handlers s); [reflexivity|].
    assert (false = true) by (apply Hb; discriminate). discriminate.
  - destruct (filter isShowPlaylist (timers s)); [reflexivity|].
    assert (H : [] = handlers s /\ false = true)
      by (destruct Hd as [E1 E2]; [discriminate|]; rewrite E1; auto).
    destruct H; discriminate.
Qed.

Lemma simple_inv_frame (s s' : State) :
  handlers s' = handlers s -> loading s' = loading s -> timers s' = timers s ->
  Inv s -> Inv s'.
Proof. unfold Inv. intros -> -> ->. auto. Qed.

Lemma simple_enabled_inputView (ev : Event) (s : State) :
  enabled ev s = true ->
  match ev with
  | ClickStartOver | DecodeSettle _ _ | Base64Settle _ _ | AiSettle _ _
  | TimerFire => True
  | _ => inputView s = true
  end.
Proof.
  destruct ev; simpl; unfold voiceTab, textTab; intros H; auto;
    repeat (apply andb_prop in H; destruct H as [H ?]); auto.
Qed.

Lemma simple_handleAnalyze_inv (s : State) :
  Inv s -> inputView s = true -> Inv (fst (handleAnalyze s)).
Proof.
  intros HI Hv. destruct (inputView_idle s HI Hv) as (Hh & Ht & Hl).
  unfold handleAnalyze.
  destruct (inputMode s), (Recorder.audioBlob (recorder s)); unfold Inv; simpl;
    rewrite Hh, filter_app, Ht; simpl; repeat split; auto; congruence.
Qed.

Lemma simple_catch_inv (s : State) :
  handlers s = [] -> filter isShowPlaylist (timers s) = [] ->
  Inv (fst (handleAnalyze_catch s)).
Proof.
  intros Hh Ht. unfold Inv. simpl. rewrite Hh, Ht. simpl.
  repeat split; auto; congruence.
Qed.

(** A suspended run excludes a pending [ShowPlaylist]. *)
Lemma simple_busy_no_ShowPlaylist (s : State) (c : Cont) :
  Inv s -> handlers s = [c] -> filter isShowPlaylist (timers s) = [].
Proof.
  intros (_ & _ & _ & Hd) Hh.
  destruct (filter isShowPlaylist (timers s)); [reflexivity|].
  destruct Hd as [E _]; [discriminate|]. congruence.
Qed.

Lemma simple_step_inv (ev : Event) (s : State) :
  Inv s -> Inv (fst (step ev s)).
Proof.
  intros HI. unfold step. destruct (enabled ev s) eqn:En; [|exact HI].
  pose proof (simple_enabled_inputView ev s En) as Hv.
  destruct ev; simpl dispatch.
  - now apply (simple_inv_frame s).
  - now apply (simple_inv_frame s).
  - unfold startRecording. destruct granted; now apply (simple_inv_frame s).
  - now apply (simple_inv_frame s).
  - unfold startRecording. destruct granted; now apply (simple_inv_frame s).
  - now apply simple_handleAnalyze_inv.
  - now apply simple_handleAnalyze_inv.
  - now apply (simple_inv_frame s).
  - unfold Recorder.decoded. destruct result; now apply (simple_inv_frame s).
  - simpl in En. destruct (nth_error (handlers s) i) as [c|] eqn:Hn;
      [|discriminate]. destruct c; try discriminate.
    destruct HI as (Ha & Hb & Hc & Hd).
    destruct (nth_error_single _ _ _ Ha Hn) as [-> Hh].
    pose proof (simple_busy_no_ShowPlaylist s _ (conj Ha (conj Hb (conj Hc Hd))) Hh)
      as Ht.
    assert (Hl : loading s = true) by (apply Hb; congruence).
    unfold handleAnalyze_encoded. destruct result.
    + unfold Inv. simpl. rewrite Hh, Ht. simpl.
      repeat split; auto; congruence.
    + apply simple_catch_inv; simpl; [now rewrite Hh|assumption].
  - simpl in En. destruct (nth_error (handlers s) i) as [c|] eqn:Hn;
      [|discriminate].
    destruct HI as (Ha & Hb & Hc & Hd).
    destruct (nth_error_single _ _ _ Ha Hn) as [-> Hh].
    pose proof (simple_busy_no_ShowPlaylist s _ (conj Ha (conj Hb (conj Hc Hd))) Hh)
      as Ht.
    assert (Hl : loading s = true) by (apply Hb; congruence).
    destruct c; try discriminate.
    + unfold handleAnalyze_analysed.
      destruct o; try (apply simple_catch_inv; simpl; [now rewrite Hh|assumption]).
      destruct (currentState v);
        [|apply simple_catch_inv; simpl; [now rewrite Hh|assumption]].
      destruct (getProp v "voice_analysis");
        [|apply simple_catch_inv; simpl; [now rewrite Hh|assumption]].
      unfold Inv. simpl. rewrite Hh, Ht. simpl.
      repeat split; auto; congruence.
    + unfold handleAnalyze_generated.
      destruct o; try (apply simple_catch_inv; simpl; [now rewrite Hh|assumption]).
      destruct (getProp v "songs");
        [|apply simple_catch_inv; simpl; [now rewrite Hh|assumption]].
      unfold Inv. simpl. rewrite Hh, filter_app, Ht. simpl.
      repeat split; auto; congruence.
  - destruct (timers s) as [|t rest] eqn:Et; [exact HI|].
    destruct HI as (Ha & Hb & Hc & Hd). rewrite Et in Hc, Hd.
    destruct t; simpl in Hc, Hd; unfold Inv; simpl.
    + exact (conj Ha (conj Hb (conj Hc Hd))).
    + assert (Hr : filter isShowPlaylist rest = [])
        by (destruct (filter isShowPlaylist rest); [reflexivity|simpl in Hc; lia]).
      destruct Hd as [Hh _]; [discriminate|].
      rewrite Hr, Hh. simpl. repeat split; auto; congruence.
Qed.

Lemma simple_run_inv (evs : list Event) (s : State) :
  Inv s -> Inv (fst (run evs s)).
Proof.
  revert s. induction evs as [|ev evs IH]; intros s HI; simpl; [exact HI|].
  pose proof (simple_step_inv ev s HI) as H1.
  destruct (step ev s) as [s1 out1]. simpl in H1.
  specialize (IH s1 H1). destruct (run evs s1) as [s2 out2]. exact IH.
Qed.

Lemma simple_reachable_inv (evs : list Event) : Inv (fst (run evs init)).
Proof. apply simple_run_inv, simple_init_inv. Qed.

End SimpleInvariant.

Section ExtendedInvariant.

Import Js Extended.

Lemma extended_init_inv : Inv init.
Proof. unfold Inv, init. simpl. split; [lia|congruence]. Qed.

Lemma extended_inv_frame (s s' : State) :
  handlers s' = handlers s -> view s' = view s -> Inv s -> Inv s'.
Proof. unfold Inv. intros -> ->. auto. Qed.

Lemma extended_idle (s : State) :
  Inv s -> view s <> ANALYZING -> handlers s = [].
Proof.
  intros [_ Hb] Hv. destruct (handlers s); [reflexivity|].
  exfalso. apply Hv, Hb. discriminate.
Qed.

(** Every control belongs to a view other than the loading view. *)
Lemma extended_enabled_view (ev : Event) (s : State) :
  enabled ev s = true ->
  match ev with
  | DecodeSettle _ _ | Base64Settle _ _ | AiSettle _ _ => True
  | _ => view s <> ANALYZING
  end.
Proof.
  destruct ev; simpl; unfold onTab, inputView, confirmationView; auto;
    destruct (view s); simpl; intros H; congruence.
Qed.

Lemma extended_busy_inv (s : State) (c : Cont) :
  handlers s = [c] -> view s = ANALYZING -> Inv s.
Proof. intros Hh Hv. unfold Inv. rewrite Hh. simpl. auto. Qed.

Lemma extended_idle_inv (s : State) : handlers s = [] -> Inv s.
Proof. intros Hh. unfold Inv. rewrite Hh. simpl. split; [lia|congruence]. Qed.

Lemma extended_generatePlaylist_inv (st : jsval) (s : State) :
  handlers s = [] -> Inv (fst (generatePlaylist st s)).
Proof.
  intros Hh. apply extended_busy_inv with (c := AwaitPlaylist); simpl; auto.
  now rewrite Hh.
Qed.

Lemma extended_step_inv (ev : Event) (s : State) :
  Inv s -> Inv (fst (step ev s)).
Proof.
  intros HI. unfold step. destruct (enabled ev s) eqn:En; [|exact HI].
  pose proof (extended_enabled_view ev s En) as Hv.
  destruct ev; simpl dispatch;
    try (apply extended_inv_frame with (s := s); [reflexivity..|exact HI]).
  - unfold toggleSelected. destruct (includes g (selectedGenres s));
      now apply extended_inv_frame with (s := s).
  - unfold toggleExcluded. destruct (includes g (excludedGenres s));
      now apply extended_inv_frame with (s := s).
  - unfold startRecording. destruct granted;
      now apply extended_inv_frame with (s := s).
  - unfold startRecording. destruct granted;
      now apply extended_inv_frame with (s := s).
  - pose proof (extended_idle s HI Hv) as Hh. unfold handleAnalyzeContext.
    destruct (activeTab s), (Recorder.audioBlob (recorder s)); simpl;
      eapply extended_busy_inv; simpl; try rewrite Hh; reflexivity.
  - pose proof (extended_idle s HI Hv) as Hh. unfold handleAnalyzeContext.
    destruct (activeTab s), (Recorder.audioBlob (recorder s)); simpl;
      eapply extended_busy_inv; simpl; try rewrite Hh; reflexivity.
  - apply extended_generatePlaylist_inv, extended_idle; assumption.
  - unfold accept. destruct (getProp (aiSuggestion s) "suggested_state");
      [|exact HI].
    apply extended_generatePlaylist_inv. simpl.
    apply extended_idle; assumption.
  - apply extended_generatePlaylist_inv, extended_idle; assumption.
  - apply extended_idle_inv. simpl. apply extended_idle; assumption.
  - unfold Recorder.decoded. destruct result;
      now apply extended_inv_frame with (s := s).
  - simpl in En. destruct (nth_error (handlers s) i) as [c|] eqn:Hn;
      [|discriminate]. destruct c; try discriminate.
    destruct HI as (Ha & Hb).
    destruct (nth_error_single _ _ _ Ha Hn) as [-> Hh].
    assert (Hw : view s = ANALYZING) by (apply Hb; congruence).
    unfold handleAnalyzeContext_encoded. destruct result.
    + eapply extended_busy_inv; simpl; [rewrite Hh; reflexivity|assumption].
    + apply extended_idle_inv. simpl. now rewrite Hh.
  - simpl in En. destruct (nth_error (handlers s) i) as [c|] eqn:Hn;
      [|discriminate].
    destruct HI as (Ha & Hb).
    destruct (nth_error_single _ _ _ Ha Hn) as [-> Hh].
    destruct c; try discriminate.
    + unfold handleAnalyzeContext_analysed.
      destruct o; apply extended_idle_inv; simpl; now rewrite Hh.
    + unfold generatePlaylist_generated.
      destruct o; apply extended_idle_inv; simpl; now rewrite Hh.
Qed.

Lemma extended_run_inv (evs : list Event) (s : State) :
  Inv s -> Inv (fst (run evs s)).
Proof.
  revert s. induction evs as [|ev evs IH]; intros s HI; simpl; [exact HI|].
  pose proof (extended_step_inv ev s HI) as H1.
  destruct (step ev s) as [s1 out1]. simpl in H1.
  specialize (IH s1 H1). destruct (run evs s1) as [s2 out2]. exact IH.
Qed.

Lemma extended_reachable_inv (evs : list Event) : Inv (fst (run evs init)).
Proof. apply extended_run_inv, extended_init_inv. Qed.

End ExtendedInvariant.

(** ** Where the requests come from *)

Section Requests.

Import Js.




(** Extended variant: the playlist request leaves in the step of one of
    the three clicks that call [generatePlaylist], with no call pending,
    and embeds the state that step leaves in [manualState]. *)
Lemma extended_playlist_request (ev : Extended.Event) (s : Extended.State)
    (p t : jsval) (g x : list string) :
  Extended.Inv s ->
  In (Request (Extended.GeneratePlaylist p t g x)) (snd (Extended.step ev s)) ->
  Extended.handlers s = []
  /\ Extended.manualState (fst (Extended.step ev s)) = p
  /\ t = Extended.HEALTHY_TARGET
  /\ ((ev = Extended.ClickFindMusic /\ Extended.view s = Extended.INPUT)
      \/ ((ev = Extended.ClickKeep
           \/ (ev = Extended.ClickAccept
               /\ getProp (Extended.aiSuggestion s) "suggested_state" = Some p))
          /\ Extended.view s = Extended.CONFIRMATION
          /\ truthy (Extended.aiSuggestion s) = true)).
Proof.
  intros HI Hin. unfold Extended.step in *.
  destruct (Extended.enabled ev s) eqn:En; [|destruct Hin].
  pose proof (extended_enabled_view ev s En) as Hv.
  destruct ev; simpl Extended.dispatch in *;
    try (simpl in Hin; contradiction).
  - unfold Extended.startRecording in Hin. destruct granted; simpl in Hin;
      intuition discriminate.
  - unfold Extended.startRecording in Hin. destruct granted; simpl in Hin;
      intuition discriminate.
  - unfold Extended.handleAnalyzeContext in Hin.
    destruct (Extended.activeTab s), (Recorder.audioBlob (Extended.recorder s));
      simpl in Hin; intuition discriminate.
  - unfold Extended.handleAnalyzeContext in Hin.
    destruct (Extended.activeTab s), (Recorder.audioBlob (Extended.recorder s));
      simpl in Hin; intuition discriminate.
  - simpl in Hin. destruct Hin as [E|[]]. inversion E; subst.
    split; [now apply extended_idle|]. repeat split. left. split; auto.
    simpl in En. unfold Extended.onTab, Extended.inputView in En.
    destruct (Extended.view s); try discriminate. reflexivity.
  - unfold Extended.accept in *.
    destruct (getProp (Extended.aiSuggestion s) "suggested_state") as [st|]
      eqn:Hs; [|simpl in Hin; contradiction].
    simpl in Hin. destruct Hin as [E|[]]. inversion E; subst.
    split; [now apply extended_idle|]. repeat split. right.
    simpl in En. unfold Extended.confirmationView in En.
    destruct (Extended.view s); try discriminate. auto.
  - simpl in Hin. destruct Hin as [E|[]]. inversion E; subst.
    split; [now apply extended_idle|]. repeat split. right.
    simpl in En. unfold Extended.confirmationView in En.
    destruct (Extended.view s); try discriminate. auto.
  - unfold Recorder.decoded in Hin. destruct result; simpl in Hin;
      intuition discriminate.
  - destruct (nth_error (Extended.handlers s) i) as [[m0 m| |]|];
      try (simpl in Hin; contradiction).
    unfold Extended.handleAnalyzeContext_encoded in Hin.
    destruct result; simpl in Hin; intuition discriminate.
  - destruct (nth_error (Extended.handlers s) i) as [[m0 m| |]|];
      try (simpl in Hin; contradiction).
    + unfold Extended.handleAnalyzeContext_analysed in Hin.
      destruct o; simpl in Hin; intuition discriminate.
    + unfold Extended.generatePlaylist_generated in Hin.
      destruct o; simpl in Hin; intuition discriminate.
Qed.

End Requests.

(** ** Runs *)

Section Runs.

Import Js.

Lemma simple_run_app (a b : list Simple.Event) (s : Simple.State) :
  Simple.run (a ++ b) s
  = (fst (Simple.run b (fst (Simple.run a s))),
     snd (Simple.run a s) ++ snd (Simple.run b (fst (Simple.run a s)))).
Proof.
  revert s. induction a as [|ev a IH]; intros s; simpl.
  - now destruct (Simple.run b s).
  - destruct (Simple.step ev s) as [s1 o1]. rewrite IH.
    destruct (Simple.run a s1) as [s2 o2]. simpl.
    now rewrite app_assoc.
Qed.

Lemma extended_run_app (a b : list Extended.Event) (s : Extended.State) :
  Extended.run (a ++ b) s
  = (fst (Extended.run b (fst (Extended.run a s))),
     snd (Extended.run a s) ++ snd (Extended.run b (fst (Extended.run a s)))).
Proof.
  revert s. induction a as [|ev a IH]; intros s; simpl.
  - now destruct (Extended.run b s).
  - destruct (Extended.step ev s) as [s1 o1]. rewrite IH.
    destruct (Extended.run a s1) as [s2 o2]. simpl.
    now rewrite app_assoc.
Qed.

Lemma extended_run_one (ev : Extended.Event) (s : Extended.State) :
  Extended.run [ev] s = (fst (Extended.step ev s), snd (Extended.step ev s)).
Proof.
  simpl. destruct (Extended.step ev s). simpl. now rewrite app_nil_r.
Qed.

(** A text of white space only trims to the empty string. *)
Lemma trimStart_blank (text : jsstring) :
  forallb isWhiteSpace text = true -> trimStart text = [].
Proof.
  induction text as [|c t IH]; simpl; [reflexivity|].
  intros H. apply andb_prop in H. destruct H as [Hc Ht].
  rewrite Hc. auto.
Qed.

Lemma trim_blank (text : jsstring) :
  forallb isWhiteSpace text = true -> trim text = [].
Proof.
  intros H. unfold trim. now rewrite (trimStart_blank text H).
Qed.

(** Extended variant: while the playlist call is pending, nothing but its
    settlement changes the view, the handlers or the stored suggestion,
    and nothing issues a request. *)
Lemma extended_waiting_step (ev : Extended.Event) (s : Extended.State) :
  Extended.view s = Extended.ANALYZING ->
  Extended.handlers s = [Extended.AwaitPlaylist] ->
  (forall i o, ev <> Extended.AiSettle i o) ->
  Extended.view (fst (Extended.step ev s)) = Extended.ANALYZING
  /\ Extended.handlers (fst (Extended.step ev s)) = [Extended.AwaitPlaylist]
  /\ Extended.aiSuggestion (fst (Extended.step ev s)) = Extended.aiSuggestion s
  /\ filter isRequest (snd (Extended.step ev s)) = [].
Proof.
  intros Hv Hh Hev. unfold Extended.step.
  destruct (Extended.enabled ev s) eqn:En; [|auto].
  pose proof (extended_enabled_view ev s En) as Hw.
  destruct ev; try (exfalso; apply Hw; exact Hv).
  - simpl. unfold Recorder.decoded. destruct result; simpl; auto.
  - simpl in En. rewrite Hh in En. destruct i as [|[|i]]; discriminate.
  - exfalso. now apply (Hev i o).
Qed.

Lemma extended_waiting_run (waiting : list Extended.Event)
    (s : Extended.State) :
  Extended.view s = Extended.ANALYZING ->
  Extended.handlers s = [Extended.AwaitPlaylist] ->
  (forall i o, ~ In (Extended.AiSettle i o) waiting) ->
  Extended.view (fst (Extended.run waiting s)) = Extended.ANALYZING
  /\ Extended.handlers (fst (Extended.run waiting s)) = [Extended.AwaitPlaylist]
  /\ Extended.aiSuggestion (fst (Extended.run waiting s))
     = Extended.aiSuggestion s
  /\ filter isRequest (snd (Extended.run waiting s)) = [].
Proof.
  revert s. induction waiting as [|ev w IH]; intros s Hv Hh Hw; simpl; auto.
  assert (Hev : forall i o, ev <> Extended.AiSettle i o)
    by (intros i o E; apply (Hw i o); now left).
  destruct (extended_waiting_step ev s Hv Hh Hev) as (H1 & H2 & H3 & H4).
  destruct (Extended.step ev s) as [s1 o1]. simpl in *.
  assert (Hw' : forall i o, ~ In (Extended.AiSettle i o) w)
    by (intros i o Hin; apply (Hw i o); now right).
  destruct (IH s1 H1 H2 Hw') as (K1 & K2 & K3 & K4).
  destruct (Extended.run w s1) as [s2 o2]. simpl in *.
  rewrite filter_app, H4, K4. repeat split; auto. congruence.
Qed.

End Runs.

(** ** Orchestration *)

Section Orchestration.

Import Js.

(** C9: in text mode a submission with empty or white-space-only text
    changes nothing and issues no request (the view cannot become
    ANALYZING through it); the submit control is enabled only in the input
    view, on the text tab, with a non-empty trimmed text and, in the
    extended variant, with at least one genre selected. *)
Theorem blank_text_is_not_submitted :
  (forall s : Simple.State,
      forallb isWhiteSpace (Simple.inputText s) = true ->
      Simple.step Simple.ClickAnalyzeText s = (s, []))
  /\ (forall s : Extended.State,
         forallb isWhiteSpace (Extended.inputText s) = true
         \/ Extended.selectedGenres s = [] ->
         Extended.step Extended.ClickCheckText s = (s, []))
  /\ (forall s : Simple.State,
         Simple.enabled Simple.ClickAnalyzeText s = true ->
         Simple.view s = Simple.INPUT
         /\ Simple.inputMode s = Simple.TEXT
         /\ trim (Simple.inputText s) <> [])
  /\ (forall s : Extended.State,
         Extended.enabled Extended.ClickCheckText s = true ->
         Extended.view s = Extended.INPUT
         /\ Extended.activeTab s = Extended.TEXT
         /\ trim (Extended.inputText s) <> []
         /\ Extended.selectedGenres s <> []).
Proof.
  split; [|split; [|split]].
  - intros s H. unfold Simple.step. simpl.
    rewrite (trim_blank _ H). simpl. now rewrite andb_false_r.
  - intros s [H|H]; unfold Extended.step; simpl.
    + rewrite (trim_blank _ H). simpl.
      now rewrite andb_false_r.
    + unfold Extended.canProceed. rewrite H. now rewrite andb_false_r.
  - intros s H. simpl in H. unfold Simple.textTab, Simple.inputView in H.
    destruct (Simple.view s); try discriminate.
    destruct (Simple.inputMode s);
      [now rewrite andb_false_r in H|].
    repeat split. intros E. rewrite E in H. simpl in H.
    now rewrite andb_false_r in H.
  - intros s H. simpl in H.
    unfold Extended.onTab, Extended.inputView, Extended.canProceed in H.
    destruct (Extended.view s); try discriminate.
    destruct (Extended.activeTab s); try discriminate.
    destruct (trim (Extended.inputText s)); [discriminate|].
    destruct (Extended.selectedGenres s); [discriminate|].
    repeat split; discriminate.
Qed.

Lemma blank_text_is_not_submitted_witness :
  Simple.step Simple.ClickAnalyzeText Scenario.blankText
  = (Scenario.blankText, []).
Proof.
  apply (proj1 blank_text_is_not_submitted Scenario.blankText). reflexivity.
Defined.

(** C10: in the extended variant the submission from the sliders tab calls
    [generatePlaylist] on the slider state: the click issues the playlist
    request and nothing else, no request is issued while it is pending nor
    when it settles, and the view goes from ANALYZING to PLAYLIST or back
    to INPUT without a confirmation step. *)
Theorem sliders_submit_one_request (evs : list Extended.Event) :
  let s := fst (Extended.run evs Extended.init) in
  Extended.enabled Extended.ClickFindMusic s = true ->
  let s1 := fst (Extended.step Extended.ClickFindMusic s) in
  snd (Extended.step Extended.ClickFindMusic s)
  = [Request (Extended.GeneratePlaylist
                (Extended.manualState s) Extended.HEALTHY_TARGET
                (Extended.selectedGenres s) (Extended.excludedGenres s))]
  /\ Extended.view s1 = Extended.ANALYZING
  /\ Extended.handlers s1 = [Extended.AwaitPlaylist]
  /\ forall (waiting : list Extended.Event) (o : AiOutcome),
      (forall i o', ~ In (Extended.AiSettle i o') waiting) ->
      let s2 := fst (Extended.run waiting s1) in
      let s3 := fst (Extended.step (Extended.AiSettle 0 o) s2) in
      filter isRequest
        (snd (Extended.run (waiting ++ [Extended.AiSettle 0 o]) s1)) = []
      /\ Extended.view s2 = Extended.ANALYZING
      /\ Extended.handlers s2 = [Extended.AwaitPlaylist]
      /\ Extended.handlers s3 = []
      /\ (Extended.view s3 = Extended.PLAYLIST
          \/ Extended.view s3 = Extended.INPUT)
      /\ Extended.aiSuggestion s3 = Extended.aiSuggestion s.
Proof.
  intros s En s1.
  pose proof (extended_reachable_inv evs) as HI. fold s in HI.
  pose proof (extended_enabled_view _ s En) as Hv. simpl in Hv.
  pose proof (extended_idle s HI Hv) as Hh.
  subst s1.
  assert (E : Extended.step Extended.ClickFindMusic s
              = Extended.dispatch Extended.ClickFindMusic s)
    by (unfold Extended.step; now rewrite En).
  rewrite E. clear E.
  set (s1 := fst (Extended.dispatch Extended.ClickFindMusic s)).
  assert (Hv1 : Extended.view s1 = Extended.ANALYZING) by reflexivity.
  assert (Hh1 : Extended.handlers s1 = [Extended.AwaitPlaylist])
    by (simpl; now rewrite Hh).
  assert (Ha1 : Extended.aiSuggestion s1 = Extended.aiSuggestion s)
    by reflexivity.
  split; [reflexivity|split; [exact Hv1|split; [exact Hh1|]]].
  intros waiting o Hw.
  destruct (extended_waiting_run waiting s1 Hv1 Hh1 Hw) as (K1 & K2 & K3 & K4).
  rewrite extended_run_app, extended_run_one. cbn [snd fst].
  rewrite filter_app, K4.
  set (s2 := fst (Extended.run waiting s1)) in *.
  unfold Extended.step. simpl. rewrite K2. simpl.
  unfold Extended.generatePlaylist_generated.
  destruct o; simpl; rewrite ?K2, ?K3, ?Ha1; simpl; repeat split; auto.
Qed.

Lemma sliders_submit_one_request_witness :
  snd (Extended.step Extended.ClickFindMusic Scenario.slidersReady)
  = [Request (Extended.GeneratePlaylist
                (Extended.manualState Scenario.slidersReady)
                Extended.HEALTHY_TARGET ["jazz"%string] [])].
Proof.
  apply (sliders_submit_one_request Scenario.slidersSet). reflexivity.
Defined.

End Orchestration.

Section Sequencing.

Import Js.



End Sequencing.

Section Failures.

Import Js.

(** The simple variant refuses one JSON value only: null. *)
Lemma currentState_defined (v : jsval) :
  v <> VNull -> v <> VUndefined ->
  exists cur, Simple.currentState v = Some cur
              /\ exists va, getProp v "voice_analysis" = Some va.
Proof.
  intros Hn Hu. unfold Simple.currentState.
  destruct v; try congruence; simpl; eauto.
Qed.

(** C1, as stated, fails: in the simple variant the playlist call fails
    after the state analysis has succeeded, and the state of the failed
    session stays stored. *)
Lemma failed_playlist_call_keeps_state : ~ Stated.failure_commits_nothing.
Proof.
  intros H.
  specialize (H (Scenario.textUntilPlaylistCall Scenario.depleted) 0%nat
                TransportFailure eq_refl eq_refl eq_refl).
  destruct H as (_ & _ & H & _). vm_compute in H. discriminate H.
Qed.

(** C1, amended: a call that ends in a transport error, an empty response
    text or a text that is not JSON returns the view to INPUT with loading
    cleared, issues no request, and stores nothing: the state variables
    keep the values they had when the call settled (so what an earlier
    call of the session stored stays).  In the simple variant the JSON
    value null ends the same way; every other JSON value is taken as a
    result without a check against the schema, and in the extended variant
    every JSON value is. *)
Theorem failed_call_returns_to_input :
  (forall (s : Simple.State) (i : nat) (o : AiOutcome),
      failed o = true \/ o = Json VNull ->
      Simple.enabled (Simple.AiSettle i o) s = true ->
      let s' := fst (Simple.step (Simple.AiSettle i o) s) in
      Simple.view s' = Simple.INPUT
      /\ Simple.loading s' = false
      /\ Simple.userState s' = Simple.userState s
      /\ Simple.voiceMetrics s' = Simple.voiceMetrics s
      /\ Simple.playlist s' = Simple.playlist s
      /\ Simple.handlers s' = remove_nth i (Simple.handlers s)
      /\ snd (Simple.step (Simple.AiSettle i o) s)
         = [ConsoleError; Alert "Analysis failed. Please try again."])
  /\ (forall (s : Extended.State) (i : nat) (o : AiOutcome),
         failed o = true ->
         Extended.enabled (Extended.AiSettle i o) s = true ->
         let s' := fst (Extended.step (Extended.AiSettle i o) s) in
         Extended.view s' = Extended.INPUT
         /\ Extended.loading s' = false
         /\ Extended.manualState s' = Extended.manualState s
         /\ Extended.aiSuggestion s' = Extended.aiSuggestion s
         /\ Extended.playlistResult s' = Extended.playlistResult s
         /\ Extended.handlers s' = remove_nth i (Extended.handlers s)
         /\ filter isRequest (snd (Extended.step (Extended.AiSettle i o) s))
            = [])
  /\ (forall (s : Simple.State) (i : nat) (v : jsval),
         nth_error (Simple.handlers s) i = Some Simple.AwaitAnalysis ->
         v <> VNull -> v <> VUndefined ->
         exists cur,
           Simple.currentState v = Some cur
           /\ Simple.userState
                (fst (Simple.step (Simple.AiSettle i (Json v)) s)) = cur
           /\ snd (Simple.step (Simple.AiSettle i (Json v)) s)
              = [Request (Simple.GeneratePlaylist cur Simple.HEALTHY_TARGET)])
  /\ (forall (s : Extended.State) (i : nat) (v : jsval),
         nth_error (Extended.handlers s) i = Some Extended.AwaitAnalysis ->
         let s' := fst (Extended.step (Extended.AiSettle i (Json v)) s) in
         Extended.view s' = Extended.CONFIRMATION
         /\ Extended.aiSuggestion s' = v).
Proof.
  split; [|split; [|split]].
  - intros s i o Ho En s'. subst s'. unfold Simple.step. rewrite En.
    simpl in *.
    destruct (nth_error (Simple.handlers s) i) as [[m| |]|]; try discriminate.
    + unfold Simple.handleAnalyze_analysed.
      destruct Ho as [Ho| ->]; [destruct o; try discriminate|]; simpl;
        repeat split; reflexivity.
    + unfold Simple.handleAnalyze_generated.
      destruct Ho as [Ho| ->]; [destruct o; try discriminate|]; simpl;
        repeat split; reflexivity.
  - intros s i o Ho En s'. subst s'. unfold Extended.step. rewrite En.
    simpl in *.
    destruct (nth_error (Extended.handlers s) i) as [[m0 m| |]|];
      try discriminate.
    + unfold Extended.handleAnalyzeContext_analysed.
      destruct o; try discriminate; simpl; repeat split; reflexivity.
    + unfold Extended.generatePlaylist_generated.
      destruct o; try discriminate; simpl; repeat split; reflexivity.
  - intros s i v Hn Hv Hu.
    destruct (currentState_defined v Hv Hu) as (cur & Hc & va & Ha).
    exists cur. split; [exact Hc|].
    unfold Simple.step. simpl. rewrite Hn. simpl.
    unfold Simple.handleAnalyze_analysed. rewrite Hc, Ha. simpl. auto.
  - intros s i v Hn s'. subst s'. unfold Extended.step. simpl.
    rewrite Hn. simpl. auto.
Qed.

Lemma failed_call_returns_to_input_witness :
  Simple.view (fst (Simple.step (Simple.AiSettle 0 NoText)
                                Scenario.playlistPending)) = Simple.INPUT
  /\ Simple.userState (fst (Simple.step (Simple.AiSettle 0 NoText)
                                        Scenario.playlistPending))
     = Simple.userState Scenario.playlistPending.
Proof.
  destruct (proj1 failed_call_returns_to_input Scenario.playlistPending
              0%nat NoText (or_introl eq_refl) eq_refl)
    as (Hv & _ & Hu & _).
  exact (conj Hv Hu).
Defined.

End Failures.

Section AxisRange.

Import Js.

Lemma lookup_setField (k : string) (v : jsval) (fields : list (string * jsval)) :
  lookup k (setField k v fields) = v.
Proof.
  induction fields as [|[k' v'] rest IH]; simpl.
  - now rewrite String.eqb_refl.
  - destruct (String.eqb k k') eqn:E; simpl.
    + now rewrite String.eqb_refl.
    + now rewrite E.
Qed.

(** C4, as stated, fails: an axis value of 1.5 in the state-analysis
    response is stored as it is (simple variant), and one in an accepted
    suggestion becomes the slider state (extended variant). *)
Lemma out_of_range_axis_is_stored : ~ Stated.stored_axes_in_range.
Proof.
  intros [H _].
  specialize (H (Scenario.textUntilPlaylistCall Scenario.overdriven)).
  vm_compute in H. destruct H as [H|H]; discriminate H.
Qed.

(** C4, amended: a value set through a slider lies in [-1,1], the bounds
    of the range input.  The axis values of an AI response are neither
    clamped nor validated: the simple variant stores each axis as
    received and embeds the stored state in the playlist request; the
    extended variant stores the response as received, and accepting it
    makes its suggested_state, as received, the slider state and the
    payload of the playlist request. *)
Theorem axis_values_stored_as_received :
  (forall (s : Extended.State) (a : Extended.Axis) (val : Q),
      Extended.enabled (Extended.SliderChange a val) s = true ->
      getProp (Extended.manualState
                 (fst (Extended.step (Extended.SliderChange a val) s)))
              (Extended.axisName a) = Some (VNum val)
      /\ Stated.inRange (VNum val) = true)
  /\ (forall (s : Simple.State) (i : nat) (v cur : jsval),
         nth_error (Simple.handlers s) i = Some Simple.AwaitAnalysis ->
         Simple.currentState v = Some cur ->
         (forall a, getProp cur (Extended.axisName a)
                    = getProp v (Extended.axisName a))
         /\ Simple.userState
              (fst (Simple.step (Simple.AiSettle i (Json v)) s)) = cur
         /\ snd (Simple.step (Simple.AiSettle i (Json v)) s)
            = [Request (Simple.GeneratePlaylist cur Simple.HEALTHY_TARGET)])
  /\ (forall (s : Extended.State) (i : nat) (v : jsval),
         nth_error (Extended.handlers s) i = Some Extended.AwaitAnalysis ->
         Extended.aiSuggestion
           (fst (Extended.step (Extended.AiSettle i (Json v)) s)) = v)
  /\ (forall (s : Extended.State) (st : jsval),
         Extended.enabled Extended.ClickAccept s = true ->
         getProp (Extended.aiSuggestion s) "suggested_state" = Some st ->
         Extended.manualState (fst (Extended.step Extended.ClickAccept s)) = st
         /\ snd (Extended.step Extended.ClickAccept s)
            = [Request (Extended.GeneratePlaylist
                          st Extended.HEALTHY_TARGET
                          (Extended.selectedGenres s)
                          (Extended.excludedGenres s))]).
Proof.
  split; [|split; [|split]].
  - intros s a val En. unfold Extended.step. rewrite En. simpl.
    rewrite lookup_setField. split; [reflexivity|].
    simpl in En. apply andb_prop in En. destruct En as [_ En]. exact En.
  - intros s i v cur Hn Hc.
    assert (Ha : exists va, getProp v "voice_analysis" = Some va).
    { unfold Simple.currentState in Hc.
      destruct v; simpl in *; try discriminate; eauto. }
    destruct Ha as [va Ha].
    split; [|split].
    + intros a. unfold Simple.currentState in Hc.
      destruct (getProp v "energy") as [e|] eqn:E1; [|discriminate].
      destruct (getProp v "reality") as [r|] eqn:E2; [|discriminate].
      destruct (getProp v "temporal") as [t|] eqn:E3; [|discriminate].
      destruct (getProp v "repetition") as [p|] eqn:E4; [|discriminate].
      destruct (getProp v "hedonic") as [h|] eqn:E5; [|discriminate].
      destruct (getProp v "summary") as [m|]; [|discriminate].
      inversion Hc; subst cur.
      destruct a; simpl Extended.axisName;
        rewrite ?E1, ?E2, ?E3, ?E4, ?E5; reflexivity.
    + unfold Simple.step. simpl. rewrite Hn. simpl.
      unfold Simple.handleAnalyze_analysed. now rewrite Hc, Ha.
    + unfold Simple.step. simpl. rewrite Hn. simpl.
      unfold Simple.handleAnalyze_analysed. now rewrite Hc, Ha.
  - intros s i v Hn. unfold Extended.step. simpl. now rewrite Hn.
  - intros s st En Hs. unfold Extended.step. rewrite En. simpl.
    unfold Extended.accept. rewrite Hs. simpl. auto.
Qed.

Lemma axis_values_stored_as_received_witness :
  getProp (Extended.manualState
             (fst (Extended.step (Extended.SliderChange Extended.hedonic (-1))
                                 Extended.init)))
          "hedonic" = Some (VNum (-1))
  /\ Stated.inRange (VNum (-1)) = true.
Proof.
  apply (proj1 axis_values_stored_as_received Extended.init Extended.hedonic).
  reflexivity.
Defined.

End AxisRange.

Section StartOver.

Import Js.

(** C6, as stated, fails: after a session of the simple variant Start Over
    leaves the playlist array stored, and after a session of the extended
    variant it leaves the slider state where the user put it. *)
Lemma start_over_keeps_state :
  ~ Stated.start_over_clears_simple /\ ~ Stated.start_over_clears_extended.
Proof.
  split; intros H.
  - specialize (H Scenario.textSession eq_refl).
    destruct H as (_ & _ & _ & H & _). vm_compute in H. discriminate H.
  - specialize (H Scenario.slidersSession eq_refl).
    destruct H as (_ & H & _). vm_compute in H. discriminate H.
Qed.

(** C6, amended: Start Over returns the view to INPUT and clears the text
    input and the recorded blob; the simple variant also resets userState
    to null and voiceMetrics to undefined, the extended variant also
    clears the suggestion, both genre lists and the playlist result.
    Everything else is left as it is: the rms/zcr metrics in both
    variants, the playlist array in the simple variant, the slider state
    in the extended variant. *)
Theorem start_over_effect :
  (forall s : Simple.State,
      Simple.enabled Simple.ClickStartOver s = true ->
      Simple.step Simple.ClickStartOver s
      = (Simple.mkState Simple.INPUT (Simple.inputMode s) VNull VUndefined
           (Simple.playlist s) (Simple.loading s) []
           (Recorder.mk (Recorder.isRecording (Simple.recorder s)) None
              (Recorder.metrics (Simple.recorder s))
              (Recorder.decoding (Simple.recorder s)))
           (Simple.handlers s) (Simple.timers s),
         []))
  /\ (forall s : Extended.State,
         Extended.enabled Extended.ClickStartOver s = true ->
         Extended.step Extended.ClickStartOver s
         = (Extended.mkState Extended.INPUT (Extended.activeTab s)
              (Extended.manualState s) VNull VNull (Extended.loading s)
              (Extended.loadingMessage s) [] [] []
              (Extended.permissionError s)
              (Recorder.mk (Recorder.isRecording (Extended.recorder s)) None
                 (Recorder.metrics (Extended.recorder s))
                 (Recorder.decoding (Extended.recorder s)))
              (Extended.handlers s),
            [])).
Proof.
  split; intros s En.
  - unfold Simple.step. now rewrite En.
  - unfold Extended.step. now rewrite En.
Qed.

Lemma start_over_effect_witness :
  Simple.view (fst (Simple.step Simple.ClickStartOver Scenario.playlistShown))
  = Simple.INPUT
  /\ Simple.playlist
       (fst (Simple.step Simple.ClickStartOver Scenario.playlistShown))
     = Simple.playlist Scenario.playlistShown.
Proof.
  rewrite (proj1 start_over_effect Scenario.playlistShown eq_refl).
  split; vm_compute; reflexivity.
Defined.

End StartOver.

Section DecodeFailure.

Import Js.




End DecodeFailure.

(** ** More on the audio features *)

Section AudioGain.

Import Audio.
Local Open Scope Q_scope.












End AudioGain.

(** ** The data URL of a recording *)

Section DataUrlFacts.

Import Js DataUrl.

Lemma split_free (sep : N) (s : jsstring) :
  free sep s = true -> split sep s = [s].
Proof.
  induction s as [|c t IH]; simpl; [reflexivity|].
  intros H. apply andb_prop in H. destruct H as [Hc Ht].
  apply negb_true_iff in Hc. rewrite Hc, (IH Ht). reflexivity.
Qed.

Lemma split_at_sep (sep : N) (s t : jsstring) :
  free sep s = true -> split sep (s ++ sep :: t) = s :: split sep t.
Proof.
  induction s as [|c s IH]; simpl.
  - intros _. now rewrite N.eqb_refl.
  - intros H. apply andb_prop in H. destruct H as [Hc Hs].
    apply negb_true_iff in Hc. rewrite Hc, (IH Hs). reflexivity.
Qed.

(** X3: [blobToBase64] resolves with the text between the first comma of
    the data URL and the next one (the whole rest when there is none),
    and with undefined when the URL has no comma. *)
Theorem blobToBase64_strips_header :
  (forall header payload : jsstring,
      free comma header = true -> free comma payload = true ->
      blobToBase64 (Some (header ++ comma :: payload)) = Some (VStr payload))
  /\ (forall header payload rest : jsstring,
         free comma header = true -> free comma payload = true ->
         blobToBase64 (Some (header ++ comma :: payload ++ comma :: rest))
         = Some (VStr payload))
  /\ (forall url : jsstring,
         free comma url = true -> blobToBase64 (Some url) = Some VUndefined).
Proof.
  split; [|split].
  - intros header payload Hh Hp. unfold blobToBase64.
    now rewrite (split_at_sep _ _ _ Hh), (split_free _ _ Hp).
  - intros header payload rest Hh Hp. unfold blobToBase64.
    now rewrite (split_at_sep _ _ _ Hh), (split_at_sep _ _ _ Hp).
  - intros url Hu. unfold blobToBase64. now rewrite (split_free _ _ Hu).
Qed.

Lemma blobToBase64_strips_header_witness :
  blobToBase64 (Some (js "data:audio/webm;base64" ++ comma :: js "GkXfo59C"))
  = Some (VStr (js "GkXfo59C")).
Proof.
  apply (proj1 blobToBase64_strips_header); reflexivity.
Defined.

End DataUrlFacts.

(** ** The extreme axis *)

Section InsightFacts.

Import Js Insight.
Local Open Scope Q_scope.

Lemma gt_true (x y : Q) : gt x y = true -> y < x.
Proof.
  unfold gt. intros H. apply negb_true_iff in H.
  apply Qnot_le_lt. intros L. apply Qle_bool_iff in L. congruence.
Qed.

Lemma gt_false (x y : Q) : gt x y = false -> x <= y.
Proof.
  unfold gt. intros H. apply negb_false_iff in H. now apply Qle_bool_iff.
Qed.

Lemma lt_true (x y : Q) : lt x y = true -> x < y.
Proof. apply gt_true. Qed.

Lemma lt_false (x y : Q) : lt x y = false -> y <= x.
Proof. apply gt_false. Qed.

(** The reduction keeps the largest absolute value met so far. *)
Lemma fold_pick (l : list (string * jsval)) (e0 : Extreme) :
  let e := fold_left pick l e0 in
  Qabs (val e0) <= Qabs (val e)
  /\ (forall k q, In (k, VNum q) l -> Qabs q <= Qabs (val e))
  /\ (e = e0 \/ In (axis e, VNum (val e)) l).
Proof.
  revert e0. induction l as [|[k v] l IH]; intros e0; simpl.
  - split; [apply Qle_refl|]. split; [intros k q []|now left].
  - destruct (IH (pick e0 (k, v))) as (H1 & H2 & H3).
    assert (Hp : Qabs (val e0) <= Qabs (val (pick e0 (k, v)))
                 /\ (forall q, v = VNum q ->
                               Qabs q <= Qabs (val (pick e0 (k, v))))
                 /\ (pick e0 (k, v) = e0
                     \/ (k, v) = (axis (pick e0 (k, v)),
                                  VNum (val (pick e0 (k, v)))))).
    { unfold pick. simpl. destruct v; try (repeat split;
        [apply Qle_refl|intros q0 E; discriminate|now left]).
      destruct (gt (Qabs q) (Qabs (val e0))) eqn:G; simpl.
      - apply gt_true in G. split; [lra|]. split; [|now right].
        intros q0 E. inversion E. apply Qle_refl.
      - apply gt_false in G. split; [apply Qle_refl|]. split; [|now left].
        intros q0 E. inversion E. subst. exact G. }
    destruct Hp as (P1 & P2 & P3).
    split; [lra|]. split.
    + intros k0 q [E|Hin].
      * inversion E; subst. specialize (P2 q eq_refl). lra.
      * now apply (H2 k0).
    + destruct H3 as [E|Hin]; [|right; now right].
      rewrite E. destruct P3 as [E'|E']; [left; exact E'|].
      right. left. exact E'.
Qed.

Lemma isAxisEntry_in (k : string) (q : Q) (l : list (string * jsval)) :
  In (k, VNum q) (filter isAxisEntry l)
  <-> In (k, VNum q) l /\ k <> "summary"%string.
Proof.
  rewrite filter_In. unfold isAxisEntry. simpl.
  rewrite andb_true_r, negb_true_iff, String.eqb_neq. tauto.
Qed.

(** X4: the axis [ISOExplanation] picks has the largest absolute value
    among the numeric properties of the state other than summary; it is
    one of them, or energy with 0 when none is larger than 0 in absolute
    value; and the text is "Fine-tuning your balance" exactly when every
    such property lies in [-0.4, 0.4]. *)
Theorem extreme_axis_is_largest (initialState : jsval) (e : Extreme)
    (He : extremeAxis initialState = Some e) :
  (forall k q, In (k, VNum q) (spread initialState) -> k <> "summary"%string ->
               Qabs q <= Qabs (val e))
  /\ (e = mkExtreme "energy" 0
      \/ (In (axis e, VNum (val e)) (spread initialState)
          /\ axis e <> "summary"%string))
  /\ (getInsightText e = FineTuning
      <-> forall k q, In (k, VNum q) (spread initialState) ->
                      k <> "summary"%string -> -4 # 10 <= q <= 4 # 10).
Proof.
  assert (E : e = fold_left pick (filter isAxisEntry (spread initialState))
                            (mkExtreme "energy" 0)).
  { unfold extremeAxis in He. destruct initialState; congruence. }
  destruct (fold_pick (filter isAxisEntry (spread initialState))
                      (mkExtreme "energy" 0)) as (_ & H2 & H3).
  rewrite <- E in H2, H3. clear E He.
  assert (Hmax : forall k q, In (k, VNum q) (spread initialState) ->
                             k <> "summary"%string -> Qabs q <= Qabs (val e)).
  { intros k q Hin Hk. apply (H2 k). now apply isAxisEntry_in. }
  assert (Hone : e = mkExtreme "energy" 0
                 \/ (In (axis e, VNum (val e)) (spread initialState)
                     /\ axis e <> "summary"%string)).
  { destruct H3 as [H3|H3]; [now left|right]. now apply isAxisEntry_in. }
  split; [exact Hmax|]. split; [exact Hone|].
  unfold getInsightText. split.
  - intros Ht k q Hin Hk.
    destruct (lt (val e) (-4 # 10)) eqn:L; [discriminate|].
    destruct (gt (val e) (4 # 10)) eqn:G; [discriminate|].
    apply lt_false in L. apply gt_false in G.
    assert (Ha : Qabs (val e) <= 4 # 10)
      by (apply Qabs_Qle_condition; split; assumption).
    specialize (Hmax k q Hin Hk).
    assert (Hq : Qabs q <= 4 # 10) by lra.
    apply Qabs_Qle_condition in Hq. exact Hq.
  - intros Hall.
    assert (Hv : -4 # 10 <= val e <= 4 # 10).
    { destruct Hone as [->|[Hin Hk]]; [simpl; split; discriminate|].
      now apply (Hall (axis e)). }
    destruct Hv as [Hlo Hhi].
    destruct (lt (val e) (-4 # 10)) eqn:L; [apply lt_true in L; lra|].
    destruct (gt (val e) (4 # 10)) eqn:G; [apply gt_true in G; lra|].
    reflexivity.
Qed.

Lemma extreme_axis_is_largest_witness :
  getInsightText (mkExtreme "energy" (-7 # 10)) = FineTuning
  <-> forall k q, In (k, VNum q) (spread Scenario.depleted) ->
                  k <> "summary"%string -> -4 # 10 <= q <= 4 # 10.
Proof.
  apply (extreme_axis_is_largest Scenario.depleted
           (mkExtreme "energy" (-7 # 10))).
  reflexivity.
Defined.

End InsightFacts.

(** ** The journey graph *)

Section GraphFacts.

Import Graph.
Local Open Scope Q_scope.





Lemma frac_lt (a b d : Q) : 0 < d -> a < b -> a / d < b / d.
Proof.
  intros Hd Hab. unfold Qdiv. apply Qmult_lt_compat_r; [|assumption].
  now apply Qinv_lt_0_compat.
Qed.

Lemma songX_increasing (n i j : nat) :
  (i < j)%nat -> songX n i < songX n j.
Proof.
  intros Hij. unfold songX, graphW, w, padding.
  assert (Hd : 0 < inject_Z (Z.of_nat n + 1))
    by (change 0 with (inject_Z 0); rewrite <- Zlt_Qlt; lia).
  assert (Hab : inject_Z (Z.of_nat i + 1) < inject_Z (Z.of_nat j + 1))
    by (rewrite <- Zlt_Qlt; lia).
  pose proof (frac_lt _ _ _ Hd Hab). lra.
Qed.

Lemma songX_inside (n i : nat) :
  (i < n)%nat -> padding < songX n i /\ songX n i < w - padding.
Proof.
  intros Hi. unfold songX, graphW, w, padding.
  assert (Hd : 0 < inject_Z (Z.of_nat n + 1))
    by (change 0 with (inject_Z 0); rewrite <- Zlt_Qlt; lia).
  assert (H0 : 0 < inject_Z (Z.of_nat i + 1))
    by (change 0 with (inject_Z 0); rewrite <- Zlt_Qlt; lia).
  assert (H1 : inject_Z (Z.of_nat i + 1) < inject_Z (Z.of_nat n + 1))
    by (rewrite <- Zlt_Qlt; lia).
  pose proof (frac_lt _ _ _ Hd H0) as L.
  pose proof (frac_lt _ _ _ Hd H1) as U.
  assert (E0 : 0 / inject_Z (Z.of_nat n + 1) == 0) by (field; lra).
  assert (E1 : inject_Z (Z.of_nat n + 1) / inject_Z (Z.of_nat n + 1) == 1)
    by (field; lra).
  rewrite E0 in L. rewrite E1 in U. split; lra.
Qed.

Lemma songPoints_bounds (n : nat) (songs : list Q) (i : nat) :
  (i + length songs = n)%nat ->
  Forall (fun p => songX n i <= x p /\ x p < w - padding)
         (songPoints n i songs).
Proof.
  revert i. induction songs as [|v rest IH]; intros i Hn; simpl;
    constructor.
  - simpl. split; [apply Qle_refl|]. apply songX_inside. simpl in Hn. lia.
  - simpl in Hn. specialize (IH (S i) ltac:(lia)).
    eapply Forall_impl; [|exact IH]. simpl. intros p [Hl Hu]. split; auto.
    pose proof (songX_increasing n i (S i) ltac:(lia)). lra.
Qed.

Lemma songPoints_sorted (n : nat) (songs : list Q) (i : nat) (last : Point) :
  (i + length songs = n)%nat -> x last = w - padding ->
  StronglySorted (fun p q => x p < x q) (songPoints n i songs ++ [last]).
Proof.
  revert i. induction songs as [|v rest IH]; intros i Hn Hl; simpl.
  - repeat constructor.
  - simpl in Hn. constructor; [apply IH; [lia|assumption]|].
    apply Forall_app. split.
    + pose proof (songPoints_bounds n rest (S i) ltac:(lia)) as Hb.
      eapply Forall_impl; [|exact Hb]. simpl. intros p [Hlo _].
      pose proof (songX_increasing n i (S i) ltac:(lia)). lra.
    + constructor; [|constructor]. simpl. rewrite Hl.
      apply songX_inside. lia.
Qed.

(** X6: the points of the graph are the start, one point per song and the
    target, drawn from left to right: the x coordinates increase strictly
    from the left edge of the plot area to its right edge. *)
Theorem points_left_to_right (initial target : Q) (songs : list Q) :
  length (points initial target songs) = (length songs + 2)%nat
  /\ StronglySorted (fun p q => x p < x q) (points initial target songs)
  /\ Forall (fun p => padding <= x p <= w - padding)
            (points initial target songs).
Proof.
  unfold points.
  pose proof (songPoints_bounds (length songs) songs 0 eq_refl) as Hb.
  pose proof (songPoints_sorted (length songs) songs 0
                (mkPoint (w - padding) (getY target)) eq_refl eq_refl) as Hs.
  assert (H0 : padding < songX (length songs) 0).
  { unfold songX, graphW, w, padding.
    assert (Hd : 0 < inject_Z (Z.of_nat (length songs) + 1))
      by (change 0 with (inject_Z 0); rewrite <- Zlt_Qlt; lia).
    assert (H1 : 0 < inject_Z (Z.of_nat 0 + 1)) by reflexivity.
    pose proof (frac_lt _ _ _ Hd H1) as L.
    assert (E0 : 0 / inject_Z (Z.of_nat (length songs) + 1) == 0)
      by (field; lra).
    rewrite E0 in L. lra. }
  split; [|split].
  - simpl. rewrite length_app. simpl.
    assert (L : forall n i l, length (songPoints n i l) = length l)
      by (intros n i l; revert i; induction l; intros; simpl; auto).
    rewrite L. lia.
  - constructor; [exact Hs|]. apply Forall_app. split.
    + eapply Forall_impl; [|exact Hb]. simpl. intros p [Hlo _]. lra.
    + constructor; [|constructor]. simpl. reflexivity.
  - constructor; [simpl; split; [apply Qle_refl|discriminate]|].
    apply Forall_app. split.
    + eapply Forall_impl; [|exact Hb]. simpl. intros p [Hlo Hhi]. lra.
    + constructor; [|constructor]. simpl. split; [discriminate|apply Qle_refl].
Qed.

End GraphFacts.

(** ** The genre lists and the sliders *)

Section GenreFacts.

Import Js Extended.

Ltac break_match :=
  match goal with
  | |- context [match ?x with _ => _ end] => destruct x eqn:?
  end.

Ltac unfold_handlers :=
  unfold step, dispatch, startRecording, handleAnalyzeContext,
    handleAnalyzeContext_encoded, handleAnalyzeContext_analysed,
    handleAnalyzeContext_catch, generatePlaylist, generatePlaylist_generated,
    generatePlaylist_catch, accept, Recorder.decoded,
    toggleSelected, toggleExcluded.

Lemma includes_In (g : string) (l : list string) :
  includes g l = true <-> In g l.
Proof.
  unfold includes. rewrite existsb_exists. split.
  - intros (x & Hx & E). apply String.eqb_eq in E. now subst.
  - intros H. exists g. split; [assumption|apply String.eqb_refl].
Qed.

Lemma includes_not_In (g : string) (l : list string) :
  includes g l = false <-> ~ In g l.
Proof.
  rewrite <- includes_In. destruct (includes g l); split; congruence.
Qed.

Lemma without_In (g x : string) (l : list string) :
  In x (without g l) <-> In x l /\ x <> g.
Proof.
  unfold without. rewrite filter_In, negb_true_iff, String.eqb_neq. tauto.
Qed.

Lemma without_NoDup (g : string) (l : list string) :
  NoDup l -> NoDup (without g l).
Proof. apply NoDup_filter. Qed.

Lemma snoc_NoDup (g : string) (l : list string) :
  NoDup l -> ~ In g l -> NoDup (l ++ [g]).
Proof.
  intros Hl Hg. apply NoDup_app; [assumption|repeat constructor; auto|].
  intros x Hx [<-|[]]. contradiction.
Qed.

(** The events that leave the genre lists alone. *)
Lemma genres_frame (ev : Event) (s : State) :
  match ev with
  | ToggleGenre _ | ToggleExclude _ | ClickStartOver => True
  | _ => selectedGenres (fst (step ev s)) = selectedGenres s
         /\ excludedGenres (fst (step ev s)) = excludedGenres s
  end.
Proof.
  destruct ev; auto; unfold_handlers; repeat break_match; simpl; auto.
Qed.

Lemma genres_step (ev : Event) (s : State) :
  Reach.GenresOk s -> Reach.GenresOk (fst (step ev s)).
Proof.
  intros HG. pose proof (genres_frame ev s) as Hf.
  unfold Reach.GenresOk in *.
  destruct ev; try (rewrite (proj1 Hf), (proj2 Hf); exact HG);
    clear Hf;
    unfold step; destruct (enabled _ s) eqn:En; try exact HG;
    destruct HG as (Hs & Hx & Hd & Ho); simpl.
  - unfold enabled in En. apply andb_prop in En. destruct En as [_ Hg].
    apply includes_In in Hg. unfold toggleSelected.
    destruct (includes g (selectedGenres s)) eqn:Hi; simpl.
    + split; [now apply without_NoDup|]. split; [assumption|]. split.
      * intros x Hin. apply without_In in Hin. now apply Hd.
      * intros x [Hin|Hin]; apply (Ho x); [left|right]; auto.
        now apply without_In in Hin.
    + apply includes_not_In in Hi.
      split; [now apply snoc_NoDup|]. split; [now apply without_NoDup|].
      split.
      * intros x Hin Hex. apply without_In in Hex. destruct Hex as [Hex Hne].
        apply in_app_or in Hin. destruct Hin as [Hin|[<-|[]]].
        -- now apply (Hd x).
        -- congruence.
      * intros x [Hin|Hin].
        -- apply in_app_or in Hin.
           destruct Hin as [Hin|[<-|[]]]; [apply (Ho x); now left|exact Hg].
        -- apply without_In in Hin. apply (Ho x). now right.
  - unfold enabled in En. apply andb_prop in En. destruct En as [_ Hg].
    apply includes_In in Hg. unfold toggleExcluded.
    destruct (includes g (excludedGenres s)) eqn:Hi; simpl.
    + split; [assumption|]. split; [now apply without_NoDup|]. split.
      * intros x Hin Hex. apply without_In in Hex. now apply (Hd x).
      * intros x [Hin|Hin]; apply (Ho x); [left|right]; auto.
        now apply without_In in Hin.
    + apply includes_not_In in Hi.
      split; [now apply without_NoDup|]. split; [now apply snoc_NoDup|].
      split.
      * intros x Hin Hex. apply without_In in Hin. destruct Hin as [Hin Hne].
        apply in_app_or in Hex. destruct Hex as [Hex|[<-|[]]].
        -- now apply (Hd x).
        -- congruence.
      * intros x [Hin|Hin].
        -- apply without_In in Hin. apply (Ho x). now left.
        -- apply in_app_or in Hin.
           destruct Hin as [Hin|[<-|[]]]; [apply (Ho x); now right|exact Hg].
  - split; [constructor|]. split; [constructor|].
    split; intros x; simpl; tauto.
Qed.

Lemma genres_run (evs : list Event) (s : State) :
  Reach.GenresOk s -> Reach.GenresOk (fst (run evs s)).
Proof.
  revert s. induction evs as [|ev evs IH]; intros s HG; simpl; [exact HG|].
  pose proof (genres_step ev s HG) as H1.
  destruct (step ev s) as [s1 o1]. simpl in H1.
  specialize (IH s1 H1). now destruct (run evs s1).
Qed.

(** X7: in every reachable state of the extended variant no genre is
    both preferred and excluded, neither list holds a genre twice, and
    both hold ids of GENRE_OPTIONS only. *)
Theorem genre_lists_stay_disjoint (evs : list Event) :
  let s := fst (run evs init) in
  NoDup (selectedGenres s)
  /\ NoDup (excludedGenres s)
  /\ (forall g, In g (selectedGenres s) -> ~ In g (excludedGenres s))
  /\ (forall g, In g (selectedGenres s) \/ In g (excludedGenres s) ->
                In g GENRE_OPTIONS).
Proof.
  apply (genres_run evs init). unfold Reach.GenresOk. simpl.
  split; [constructor|]. split; [constructor|]. split; intros g; tauto.
Qed.

(** X8: the click on a genre flips whether it is preferred, changes the
    preference of no other genre, and leaves the genre not excluded when
    it has become preferred. *)
Theorem toggle_flips_one_genre (g : string) (s : State) :
  includes g (selectedGenres (toggleSelected g s))
  = negb (includes g (selectedGenres s))
  /\ (forall g', g' <> g ->
        includes g' (selectedGenres (toggleSelected g s))
        = includes g' (selectedGenres s))
  /\ (includes g (selectedGenres (toggleSelected g s)) = true ->
      includes g (excludedGenres (toggleSelected g s)) = false).
Proof.
  unfold toggleSelected.
  destruct (includes g (selectedGenres s)) eqn:Hi; simpl.
  - assert (Hn : includes g (without g (selectedGenres s)) = false).
    { apply includes_not_In. intros H. apply without_In in H. tauto. }
    split; [exact Hn|]. split; [|congruence].
    intros g' Hg.
    destruct (includes g' (selectedGenres s)) eqn:E.
    + apply includes_In. apply without_In. apply includes_In in E. auto.
    + apply includes_not_In. apply includes_not_In in E.
      intros H. apply without_In in H. tauto.
  - split; [|split].
    + apply includes_In. apply in_or_app. right. now left.
    + intros g' Hg.
      destruct (includes g' (selectedGenres s)) eqn:E.
      * apply includes_In. apply includes_In in E. apply in_or_app. now left.
      * apply includes_not_In. apply includes_not_In in E.
        intros H. apply in_app_or in H. destruct H as [H|[H|[]]]; auto.
    + intros _. apply includes_not_In. intros H. apply without_In in H. tauto.
Qed.

End GenreFacts.

Section SliderFacts.

Import Js Extended.

Ltac break_match :=
  match goal with
  | |- context [match ?x with _ => _ end] => destruct x eqn:?
  end.

Ltac unfold_handlers :=
  unfold step, dispatch, startRecording, handleAnalyzeContext,
    handleAnalyzeContext_encoded, handleAnalyzeContext_analysed,
    handleAnalyzeContext_catch, generatePlaylist, generatePlaylist_generated,
    generatePlaylist_catch, accept, Recorder.decoded,
    toggleSelected, toggleExcluded.

Lemma lookup_setField_other (k k' : string) (v : jsval)
    (fields : list (string * jsval)) :
  k' <> k -> lookup k' (setField k v fields) = lookup k' fields.
Proof.
  intros Hk. apply String.eqb_neq in Hk.
  induction fields as [|[k0 v0] rest IH]; simpl.
  - now rewrite Hk.
  - destruct (String.eqb k k0) eqn:E; simpl.
    + apply String.eqb_eq in E. subst k0. now rewrite Hk.
    + now rewrite IH.
Qed.

Lemma axisName_inj (a b : Axis) : axisName a = axisName b -> a = b.
Proof. destruct a, b; simpl; intros H; congruence || discriminate. Qed.

(** X9: moving a slider writes its axis and leaves every other property
    of the slider state as it was. *)
Theorem slider_sets_one_axis (a : Axis) (val : Q) (s : State)
    (fields : list (string * jsval)) (Hobj : manualState s = VObj fields) :
  getProp (manualState (handleSliderChange a val s)) (axisName a)
  = Some (VNum val)
  /\ forall k, k <> axisName a ->
       getProp (manualState (handleSliderChange a val s)) k
       = getProp (manualState s) k.
Proof.
  unfold handleSliderChange. simpl. rewrite Hobj. simpl. split.
  - now rewrite lookup_setField.
  - intros k Hk. now rewrite lookup_setField_other.
Qed.

Lemma slider_sets_one_axis_witness :
  getProp (manualState (handleSliderChange energy (-7 # 10) init)) "energy"
  = Some (VNum (-7 # 10))
  /\ forall k, k <> "energy"%string ->
       getProp (manualState (handleSliderChange energy (-7 # 10) init)) k
       = getProp (manualState init) k.
Proof.
  apply (slider_sets_one_axis energy (-7 # 10) init
           (spread INITIAL_STATE)).
  reflexivity.
Defined.

(** The events that leave the slider state alone. *)
Lemma manualState_frame (ev : Event) (s : State) :
  match ev with
  | SliderChange _ _ | ClickAccept => True
  | _ => manualState (fst (step ev s)) = manualState s
  end.
Proof.
  destruct ev; auto; unfold_handlers; repeat break_match; simpl; auto.
Qed.

Lemma axes_step (ev : Event) (s : State) :
  Reach.isAccept ev = false ->
  Reach.AxesSet (manualState s) ->
  Reach.AxesSet (manualState (fst (step ev s))).
Proof.
  intros Hacc HA. pose proof (manualState_frame ev s) as Hf.
  destruct ev; try discriminate; try (rewrite Hf; exact HA). clear Hf Hacc.
  unfold step. destruct (enabled _ s) eqn:En; [|exact HA].
  unfold enabled in En. apply andb_prop in En. destruct En as [_ Hv].
  unfold sliderValue in Hv. apply andb_prop in Hv. destruct Hv as [Hlo Hhi].
  apply Qle_bool_iff in Hlo, Hhi.
  destruct HA as (fields & Hm & Hax). simpl. unfold handleSliderChange.
  simpl. rewrite Hm. simpl.
  eexists. split; [reflexivity|]. intros b.
  destruct (String.eqb (axisName b) (axisName axis)) eqn:E.
  - apply String.eqb_eq in E. rewrite E, lookup_setField.
    exists val. auto.
  - apply String.eqb_neq in E. rewrite lookup_setField_other by assumption.
    apply Hax.
Qed.

Lemma axes_run (evs : list Event) (s : State) :
  existsb Reach.isAccept evs = false ->
  Reach.AxesSet (manualState s) ->
  Reach.AxesSet (manualState (fst (run evs s))).
Proof.
  revert s. induction evs as [|ev evs IH]; intros s Hacc HA; simpl;
    [exact HA|].
  simpl in Hacc. apply orb_false_iff in Hacc. destruct Hacc as [H1 H2].
  pose proof (axes_step ev s H1 HA) as HA1.
  destruct (step ev s) as [s1 o1]. simpl in HA1.
  specialize (IH s1 H2 HA1). now destruct (run evs s1).
Qed.

(** X10: as long as no suggestion is accepted, the slider state of the
    extended variant is an object whose five axes are numbers of [-1,1];
    such a state is what every playlist request of such a run embeds. *)
Theorem sliders_keep_axes_in_range (evs : list Event)
    (Hno : existsb Reach.isAccept evs = false) :
  Reach.AxesSet (manualState (fst (run evs init)))
  /\ forall ev p t g x,
       Reach.isAccept ev = false ->
       In (Request (GeneratePlaylist p t g x))
          (snd (step ev (fst (run evs init)))) ->
       Reach.AxesSet p.
Proof.
  assert (H0 : Reach.AxesSet (manualState init)).
  { exists (spread INITIAL_STATE). split; [reflexivity|].
    intros a. exists 0%Q. destruct a; simpl; split; auto; split; discriminate. }
  pose proof (axes_run evs init Hno H0) as HA.
  split; [exact HA|].
  intros ev p t g x Hacc Hin.
  pose proof (axes_step ev _ Hacc HA) as HA'.
  destruct (extended_playlist_request ev _ p t g x
              (extended_reachable_inv evs) Hin) as (_ & Hm & _).
  now rewrite <- Hm.
Qed.

Lemma sliders_keep_axes_in_range_witness :
  Reach.AxesSet
    (manualState (fst (run Scenario.slidersSession init))).
Proof.
  apply (sliders_keep_axes_in_range Scenario.slidersSession). reflexivity.
Defined.

End SliderFacts.

(** ** The loading view of the extended variant *)

Section LoadingView.

Import Js Extended.

Lemma shown_idle (s : State) :
  handlers s = [] -> view s <> ANALYZING -> loading s = false ->
  Reach.Shown s.
Proof.
  intros Hh Hv Hl. unfold Reach.Shown. rewrite Hh. simpl.
  split; [lia|]. split; [auto|congruence].
Qed.

Lemma shown_busy (s : State) (c : Cont) :
  handlers s = [c] -> view s = ANALYZING -> loading s = true ->
  Reach.Shown s.
Proof.
  intros Hh Hv Hl. unfold Reach.Shown. rewrite Hh. simpl.
  split; [lia|]. split; [discriminate|auto].
Qed.

Lemma shown_frame (s s' : State) :
  handlers s' = handlers s -> view s' = view s -> loading s' = loading s ->
  Reach.Shown s -> Reach.Shown s'.
Proof. unfold Reach.Shown. intros -> -> ->. auto. Qed.

Lemma shown_not_analyzing (s : State) :
  Reach.Shown s -> view s <> ANALYZING ->
  handlers s = [] /\ loading s = false.
Proof.
  intros (_ & Hi & Hb) Hv.
  destruct (handlers s) eqn:E.
  - split; [reflexivity|]. now apply Hi.
  - exfalso. apply Hv. apply Hb. discriminate.
Qed.

Lemma shown_step (ev : Event) (s : State) :
  Reach.Shown s -> Reach.Shown (fst (step ev s)).
Proof.
  intros HS. unfold step. destruct (enabled ev s) eqn:En; [|exact HS].
  pose proof (extended_enabled_view ev s En) as Hv.
  destruct ev; simpl dispatch;
    try (apply shown_frame with (s := s); [reflexivity..|exact HS]);
    try (destruct (shown_not_analyzing s HS Hv) as [Hh Hl]).
  - unfold toggleSelected. destruct (includes g (selectedGenres s));
      now apply shown_frame with (s := s).
  - unfold toggleExcluded. destruct (includes g (excludedGenres s));
      now apply shown_frame with (s := s).
  - unfold startRecording. destruct granted;
      now apply shown_frame with (s := s).
  - unfold startRecording. destruct granted;
      now apply shown_frame with (s := s).
  - unfold handleAnalyzeContext.
    destruct (activeTab s), (Recorder.audioBlob (recorder s)); simpl;
      eapply shown_busy; simpl; try rewrite Hh; reflexivity.
  - unfold handleAnalyzeContext.
    destruct (activeTab s), (Recorder.audioBlob (recorder s)); simpl;
      eapply shown_busy; simpl; try rewrite Hh; reflexivity.
  - eapply shown_busy; simpl; try rewrite Hh; reflexivity.
  - unfold accept. destruct (getProp (aiSuggestion s) "suggested_state");
      [|exact HS].
    eapply shown_busy; simpl; try rewrite Hh; reflexivity.
  - eapply shown_busy; simpl; try rewrite Hh; reflexivity.
  - apply shown_idle; simpl; [assumption|discriminate|assumption].
  - unfold Recorder.decoded. destruct result;
      now apply shown_frame with (s := s).
  - simpl in En. destruct (nth_error (handlers s) i) as [c|] eqn:Hn;
      [|discriminate]. destruct c; try discriminate.
    destruct HS as (Ha & Hi & Hb).
    destruct (nth_error_single _ _ _ Ha Hn) as [-> Hh].
    destruct Hb as [Hw Hl]; [congruence|].
    unfold handleAnalyzeContext_encoded. destruct result.
    + eapply shown_busy; simpl; [rewrite Hh; reflexivity|assumption..].
    + apply shown_idle; simpl; [now rewrite Hh|discriminate|reflexivity].
  - simpl in En. destruct (nth_error (handlers s) i) as [c|] eqn:Hn;
      [|discriminate].
    destruct HS as (Ha & Hi & Hb).
    destruct (nth_error_single _ _ _ Ha Hn) as [-> Hh].
    destruct c; try discriminate.
    + unfold handleAnalyzeContext_analysed.
      destruct o; apply shown_idle; simpl;
        solve [now rewrite Hh|discriminate|reflexivity].
    + unfold generatePlaylist_generated.
      destruct o; apply shown_idle; simpl;
        solve [now rewrite Hh|discriminate|reflexivity].
Qed.

Lemma shown_run (evs : list Event) (s : State) :
  Reach.Shown s -> Reach.Shown (fst (run evs s)).
Proof.
  revert s. induction evs as [|ev evs IH]; intros s HS; simpl; [exact HS|].
  pose proof (shown_step ev s HS) as H1.
  destruct (step ev s) as [s1 o1]. simpl in H1.
  specialize (IH s1 H1). now destruct (run evs s1).
Qed.

(** X11: in every reachable state of the extended variant the loading
    view is shown exactly while a handler is suspended at an await, and
    the loading flag is set exactly then: once the pending operation has
    settled, the view is no longer ANALYZING. *)
Theorem loading_view_while_pending (evs : list Event) :
  let s := fst (run evs init) in
  (view s = ANALYZING <-> handlers s <> [])
  /\ (loading s = true <-> handlers s <> [])
  /\ (length (handlers s) <= 1)%nat.
Proof.
  intros s.
  assert (HS : Reach.Shown s).
  { apply shown_run. apply shown_idle; simpl; auto. discriminate. }
  destruct HS as (Ha & Hi & Hb).
  split; [|split; [|exact Ha]].
  - split; [|apply Hb].
    intros Hv Hh. destruct (Hi Hh) as [Hn _]. contradiction.
  - split; [|apply Hb].
    intros Hl Hh. destruct (Hi Hh) as [_ Hf]. congruence.
Qed.

Lemma blank_step (w : ViewState) (ev : Event) (s : State) :
  Reach.Blank w s ->
  Reach.Blank w (fst (step ev s))
  /\ (Reach.isUserEvent ev = true -> enabled ev s = false).
Proof.
  intros (Hh & Hw & Hv).
  assert (Hu : Reach.isUserEvent ev = true -> enabled ev s = false).
  { intros Hu. destruct ev; try discriminate; simpl;
      unfold onTab, inputView, confirmationView; rewrite Hw;
      destruct Hv as [[-> Hf]|[-> Hf]]; simpl; auto. }
  split; [|exact Hu].
  assert (HB : Reach.Blank w s) by (split; [|split]; assumption).
  unfold step. destruct (enabled ev s) eqn:En; [|exact HB].
  destruct ev; try discriminate (Hu eq_refl).
  - simpl. unfold Recorder.decoded. destruct result; exact HB.
  - simpl in En. rewrite Hh in En. destruct i; discriminate.
  - simpl in En. rewrite Hh in En. destruct i; discriminate.
Qed.

Lemma blank_run (w : ViewState) (evs : list Event) (s : State) :
  Reach.Blank w s -> Reach.Blank w (fst (run evs s)).
Proof.
  revert s. induction evs as [|ev evs IH]; intros s HB; simpl; [exact HB|].
  destruct (blank_step w ev s HB) as (H1 & _).
  destruct (step ev s) as [s1 o1]. simpl in H1.
  specialize (IH s1 H1). now destruct (run evs s1).
Qed.

(** X12: the extended variant stores any parsed response.  When the value
    is falsy (null, false, 0 or the empty string) the view it leads to,
    CONFIRMATION or PLAYLIST, renders nothing: from then on the view does
    not change and no control is enabled, whatever happens. *)
Theorem falsy_response_leaves_blank_view (s : State) (c : Cont) (v : jsval)
    (evs : list Event) (ev : Event)
    (Hh : handlers s = [c])
    (Hc : c = AwaitAnalysis \/ c = AwaitPlaylist)
    (Hv : truthy v = false)
    (Hu : Reach.isUserEvent ev = true) :
  let s1 := fst (step (AiSettle 0 (Json v)) s) in
  let s' := fst (run evs s1) in
  (c = AwaitAnalysis -> view s1 = CONFIRMATION /\ aiSuggestion s1 = v)
  /\ (c = AwaitPlaylist -> view s1 = PLAYLIST /\ playlistResult s1 = v)
  /\ view s' = view s1
  /\ enabled ev s' = false.
Proof.
  intros s1 s'.
  assert (HB : Reach.Blank (view s1) s1
               /\ (c = AwaitAnalysis ->
                   view s1 = CONFIRMATION /\ aiSuggestion s1 = v)
               /\ (c = AwaitPlaylist ->
                   view s1 = PLAYLIST /\ playlistResult s1 = v)).
  { subst s1. unfold step. simpl. rewrite Hh. simpl.
    destruct Hc as [-> | ->]; simpl; unfold Reach.Blank; simpl;
      (split; [split; [reflexivity|split; [reflexivity|auto]]|]);
      split; intros E; try discriminate; auto. }
  destruct HB as (HB & H1 & H2).
  pose proof (blank_run _ evs s1 HB) as HB'. fold s' in HB'.
  destruct (blank_step _ ev s' HB') as (_ & Hd).
  split; [exact H1|]. split; [exact H2|]. split; [|now apply Hd].
  now destruct HB' as (_ & Hw & _).
Qed.

Lemma falsy_response_leaves_blank_view_witness :
  view (fst (run [ClickStartOver; SelectTab TEXT]
                 (fst (step (AiSettle 0 (Json VNull))
                            (fst (step ClickFindMusic
                                       Scenario.slidersReady))))))
  = view (fst (step (AiSettle 0 (Json VNull))
                    (fst (step ClickFindMusic Scenario.slidersReady))))
  /\ enabled ClickStartOver
       (fst (run [ClickStartOver; SelectTab TEXT]
                 (fst (step (AiSettle 0 (Json VNull))
                            (fst (step ClickFindMusic
                                       Scenario.slidersReady))))))
     = false.
Proof.
  destruct (falsy_response_leaves_blank_view
              (fst (step ClickFindMusic Scenario.slidersReady))
              AwaitPlaylist VNull [ClickStartOver; SelectTab TEXT]
              ClickStartOver eq_refl (or_intror eq_refl) eq_refl eq_refl)
    as (_ & _ & Hw & Hd).
  exact (conj Hw Hd).
Defined.

End LoadingView.

(** ** The loading flag and the playlist view of the simple variant *)

Section SimpleViews.

Import Js Simple.

Ltac break_match :=
  match goal with
  | |- context [match ?x with _ => _ end] => destruct x eqn:?
  end.

Ltac unfold_handlers :=
  unfold step, dispatch, startRecording, startOver, handleAnalyze,
    handleAnalyze_encoded, handleAnalyze_analysed, handleAnalyze_generated,
    handleAnalyze_catch, fire, setTimeout, Recorder.decoded.

Lemma snoc_not_nil {A : Type} (l : list A) (x : A) : l ++ [x] <> [].
Proof. destruct l; discriminate. Qed.

(** What [Busy] adds to [Inv] is kept by every step. *)
Lemma busy_step (ev : Event) (s : State) :
  view s <> RECORDING
  /\ (loading s = true ->
      handlers s <> [] \/ filter isShowPlaylist (timers s) <> []) ->
  view (fst (step ev s)) <> RECORDING
  /\ (loading (fst (step ev s)) = true ->
      handlers (fst (step ev s)) <> []
      \/ filter isShowPlaylist (timers (fst (step ev s))) <> []).
Proof.
  intros [Hv Hl].
  destruct ev; unfold_handlers; repeat break_match; simpl;
    (split;
     [first [assumption|discriminate]
     |first [exact Hl
            |discriminate
            |intros _; left; apply snoc_not_nil
            |intros _; right; rewrite filter_app; apply snoc_not_nil
            |intros L;
             simpl in Hl;
             try match goal with E : timers s = _ |- _ => rewrite E end;
             exact (Hl L)]]).
Qed.

Lemma busy_run (evs : list Event) (s : State) :
  Reach.Busy s -> Reach.Busy (fst (run evs s)).
Proof.
  revert s. induction evs as [|ev evs IH]; intros s HB; simpl; [exact HB|].
  destruct HB as (HI & HB).
  pose proof (simple_step_inv ev s HI) as H1.
  pose proof (busy_step ev s HB) as H2.
  destruct (step ev s) as [s1 o1]. simpl in H1, H2.
  specialize (IH s1 (conj H1 H2)). now destruct (run evs s1).
Qed.

(** X13: in every reachable state of the simple variant the view is never
    RECORDING, and the loading flag is set exactly while a run of
    [handleAnalyze] is suspended at an await or its closing timeout is
    pending. *)
Theorem loading_flag_while_pending (evs : list Event) :
  let s := fst (run evs init) in
  view s <> RECORDING
  /\ (loading s = true
      <-> handlers s <> [] \/ filter isShowPlaylist (timers s) <> []).
Proof.
  intros s.
  assert (HB : Reach.Busy s).
  { apply busy_run. split; [apply simple_init_inv|].
    simpl. split; [discriminate|discriminate]. }
  destruct HB as ((_ & Hb & _ & Hd) & Hv & Hl).
  split; [exact Hv|]. split; [exact Hl|].
  intros [H|H]; [now apply Hb|now apply Hd].
Qed.








End SimpleViews.

(** ** An early failure, and the count of requests *)

Section SimpleRuns.

Import Js Simple.

Lemma stuck_step (ev : Event) (s : State) :
  Reach.Stuck s ->
  Reach.Stuck (fst (step ev s))
  /\ filter isRequest (snd (step ev s)) = []
  /\ (Reach.isSimpleUserEvent ev = true -> enabled ev s = false).
Proof.
  intros (Hv & Hl & Hh & Ht).
  assert (HS : Reach.Stuck s) by (repeat split; assumption).
  assert (Hu : Reach.isSimpleUserEvent ev = true -> enabled ev s = false).
  { intros Hu. destruct ev; try discriminate; simpl;
      unfold voiceTab, textTab, inputView; rewrite Hv; reflexivity. }
  split; [|split; [|exact Hu]];
    unfold step; destruct (enabled ev s) eqn:En; auto;
    destruct ev; try discriminate (Hu eq_refl); simpl in *;
    try (rewrite Hh in En; destruct i; discriminate);
    try (rewrite Ht in En; discriminate).
  - unfold Recorder.decoded. destruct result; exact HS.
  - unfold Recorder.decoded. destruct result; reflexivity.
Qed.

Lemma stuck_run (evs : list Event) (s : State) :
  Reach.Stuck s ->
  Reach.Stuck (fst (run evs s)) /\ filter isRequest (snd (run evs s)) = [].
Proof.
  revert s. induction evs as [|ev evs IH]; intros s HS; simpl; [auto|].
  destruct (stuck_step ev s HS) as (H1 & H2 & _).
  destruct (step ev s) as [s1 o1]. simpl in H1, H2.
  destruct (IH s1 H1) as [K1 K2]. destruct (run evs s1) as [s2 o2].
  simpl in *. split; [exact K1|]. now rewrite filter_app, H2, K2.
Qed.

(** X15: in the simple variant, when the state-analysis call of a text
    submission fails before the 300 ms timeout of [handleAnalyze] has
    fired, the timeout then puts the view back to ANALYZING with the
    loading flag cleared; from then on no control is enabled, no request
    is issued and the view stays ANALYZING, whatever happens. *)
Theorem early_failure_leaves_loading_view (evs after : list Event)
    (o : AiOutcome) (ev : Event)
    (Hen : enabled ClickAnalyzeText (fst (run evs init)) = true)
    (Htm : timers (fst (run evs init)) = [])
    (Ho : failed o = true)
    (Hu : Reach.isSimpleUserEvent ev = true) :
  let s := fst (run evs init) in
  let s3 := fst (run [ClickAnalyzeText; AiSettle 0 o; TimerFire] s) in
  let s' := fst (run after s3) in
  view s3 = ANALYZING /\ loading s3 = false
  /\ view s' = ANALYZING /\ loading s' = false
  /\ enabled ev s' = false
  /\ filter isRequest (snd (run after s3)) = [].
Proof.
  intros s s3 s'.
  pose proof (simple_reachable_inv evs) as HI. fold s in HI, Hen, Htm.
  pose proof (simple_enabled_inputView _ s Hen) as Hv. simpl in Hv.
  destruct (inputView_idle s HI Hv) as (Hh & _ & _).
  assert (Hm : inputMode s = TEXT).
  { simpl in Hen. unfold textTab in Hen.
    destruct (inputMode s); [|reflexivity].
    rewrite andb_false_r in Hen. discriminate. }
  assert (HS : Reach.Stuck s3).
  { subst s3. simpl run. unfold step at 1. rewrite Hen.
    simpl dispatch. unfold handleAnalyze, setTimeout. rewrite Hm. simpl.
    rewrite Hh, Htm. simpl.
    unfold step. simpl. unfold handleAnalyze_analysed.
    destruct o; try discriminate; simpl; repeat split. }
  destruct (stuck_run after s3 HS) as [HS' Hq]. fold s' in HS'.
  destruct (stuck_step ev s' HS') as (_ & _ & Hd).
  destruct HS as (V3 & L3 & _), HS' as (V' & L' & _).
  repeat split; auto.
Qed.

Lemma early_failure_leaves_loading_view_witness :
  view (fst (run [ClickAnalyzeText; AiSettle 0 TransportFailure; TimerFire]
                 (fst (run [SelectMode TEXT; ChangeText Scenario.feeling]
                           init))))
  = ANALYZING
  /\ loading (fst (run [ClickAnalyzeText; AiSettle 0 TransportFailure;
                        TimerFire]
                       (fst (run [SelectMode TEXT;
                                  ChangeText Scenario.feeling] init))))
     = false.
Proof.
  destruct (early_failure_leaves_loading_view
              [SelectMode TEXT; ChangeText Scenario.feeling] []
              TransportFailure ClickAnalyzeText
              eq_refl eq_refl eq_refl eq_refl) as (Hv & Hl & _).
  exact (conj Hv Hl).
Defined.

Lemma counts_app (a b : list (Effect Req)) :
  Reach.analyses (a ++ b) = (Reach.analyses a + Reach.analyses b)%nat
  /\ Reach.playlists (a ++ b) = (Reach.playlists a + Reach.playlists b)%nat.
Proof.
  unfold Reach.analyses, Reach.playlists.
  now rewrite !filter_app, !length_app.
Qed.

(** One step: a playlist request uses up an awaited analysis, and an
    analysis is awaited only after its request. *)
Lemma counts_step (ev : Event) (s : State) :
  Inv s ->
  (Reach.playlists (snd (step ev s)) + Reach.awaited (fst (step ev s))
   <= Reach.analyses (snd (step ev s)) + Reach.awaited s)%nat.
Proof.
  intros HI. unfold step. destruct (enabled ev s) eqn:En; [|simpl; lia].
  destruct ev; simpl dispatch;
    try (unfold Reach.awaited; simpl; lia).
  - unfold startRecording. destruct granted; simpl;
      unfold Reach.awaited; simpl; lia.
  - unfold startRecording. destruct granted; simpl;
      unfold Reach.awaited; simpl; lia.
  - unfold handleAnalyze.
    destruct (inputMode s), (Recorder.audioBlob (recorder s)); simpl;
      unfold Reach.awaited; simpl; rewrite filter_app, length_app; simpl;
      lia.
  - unfold handleAnalyze.
    destruct (inputMode s), (Recorder.audioBlob (recorder s)); simpl;
      unfold Reach.awaited; simpl; rewrite filter_app, length_app; simpl;
      lia.
  - unfold Recorder.decoded. destruct result; simpl;
      unfold Reach.awaited; simpl; lia.
  - simpl in En. destruct (nth_error (handlers s) i) as [c|] eqn:Hn;
      [|discriminate]. destruct c; try discriminate.
    destruct HI as (Ha & _).
    destruct (nth_error_single _ _ _ Ha Hn) as [-> Hh].
    unfold handleAnalyze_encoded, Reach.awaited.
    destruct result; simpl; rewrite Hh; simpl; lia.
  - simpl in En. destruct (nth_error (handlers s) i) as [c|] eqn:Hn;
      [|discriminate].
    destruct HI as (Ha & _).
    destruct (nth_error_single _ _ _ Ha Hn) as [-> Hh].
    destruct c; try discriminate.
    + unfold handleAnalyze_analysed, Reach.awaited.
      destruct o; simpl; rewrite ?Hh; simpl; try lia.
      destruct (currentState v); simpl; rewrite ?Hh; simpl; try lia.
      destruct (getProp v "voice_analysis"); simpl; rewrite ?Hh; simpl; lia.
    + unfold handleAnalyze_generated, Reach.awaited.
      destruct o; simpl; rewrite ?Hh; simpl; try lia.
      destruct (getProp v "songs"); simpl; rewrite ?Hh; simpl; lia.
  - destruct (timers s) as [|t rest]; simpl;
      [lia|destruct t; simpl; unfold Reach.awaited; simpl; lia].
Qed.

Lemma counts_run (evs : list Event) (s : State) :
  Inv s ->
  (Reach.playlists (snd (run evs s)) + Reach.awaited (fst (run evs s))
   <= Reach.analyses (snd (run evs s)) + Reach.awaited s)%nat.
Proof.
  revert s. induction evs as [|ev evs IH]; intros s HI; simpl; [lia|].
  pose proof (counts_step ev s HI) as H1.
  pose proof (simple_step_inv ev s HI) as HI1.
  destruct (step ev s) as [s1 o1]. simpl in H1, HI1.
  specialize (IH s1 HI1). destruct (run evs s1) as [s2 o2]. simpl in *.
  destruct (counts_app o1 o2) as [-> ->]. lia.
Qed.

(** X16: in every run of the simple variant the playlist requests issued
    so far never outnumber the state-analysis requests issued so far, and
    a run that has issued as many of both awaits no state analysis. *)
Theorem playlist_requests_follow_analyses (evs : list Event) :
  (Reach.playlists (snd (run evs init))
   <= Reach.analyses (snd (run evs init)))%nat
  /\ (Reach.playlists (snd (run evs init))
      = Reach.analyses (snd (run evs init)) ->
      Reach.awaited (fst (run evs init)) = 0%nat).
Proof.
  pose proof (counts_run evs init simple_init_inv) as H.
  change (Reach.awaited init) with 0%nat in H. split; lia.
Qed.

End SimpleRuns.

(** ** The metrics a voice request embeds *)

Section ClickTimeMetrics.

Import Js Simple.

Lemma encoding_step (ev : Event) (s : State) (m : option Audio.Metrics) :
  handlers s = [AwaitBase64 m] -> Reach.isDecodeSettle ev = true ->
  handlers (fst (step ev s)) = [AwaitBase64 m]
  /\ filter isRequest (snd (step ev s)) = [].
Proof.
  intros Hh Hd. destruct ev; try discriminate.
  unfold step. destruct (enabled _ s); [|auto].
  simpl. unfold Recorder.decoded. destruct result; auto.
Qed.

Lemma encoding_run (evs : list Event) (s : State) (m : option Audio.Metrics) :
  handlers s = [AwaitBase64 m] -> forallb Reach.isDecodeSettle evs = true ->
  handlers (fst (run evs s)) = [AwaitBase64 m]
  /\ filter isRequest (snd (run evs s)) = [].
Proof.
  revert s. induction evs as [|ev evs IH]; intros s Hh Hd; simpl; [auto|].
  simpl in Hd. apply andb_prop in Hd. destruct Hd as [H1 H2].
  destruct (encoding_step ev s m Hh H1) as [K1 K2].
  destruct (step ev s) as [s1 o1]. simpl in K1, K2.
  destruct (IH s1 K1 H2) as [L1 L2]. destruct (run evs s1) as [s2 o2].
  simpl in *. split; [exact L1|]. now rewrite filter_app, K2, L2.
Qed.

(** X17: the state-analysis request of a voice submission embeds the
    metrics that were stored when the button was clicked: a decoding that
    settles between the click and the end of the base64 encoding does not
    reach the request. *)
Theorem voice_request_uses_click_time_metrics
    (evs decodings : list Event) (base64Audio : jsstring)
    (Hen : enabled ClickAnalyzeVoice (fst (run evs init)) = true)
    (Hdec : forallb Reach.isDecodeSettle decodings = true) :
  let s := fst (run evs init) in
  filter isRequest
    (snd (run (ClickAnalyzeVoice
               :: decodings ++ [Base64Settle 0 (Some base64Audio)]) s))
  = [Request (AnalyzeVoice
                (clientMetricsStr 3 (Recorder.metrics (recorder s)))
                base64Audio)].
Proof.
  intros s.
  pose proof (simple_reachable_inv evs) as HI. fold s in HI, Hen.
  pose proof (simple_enabled_inputView _ s Hen) as Hv. simpl in Hv.
  destruct (inputView_idle s HI Hv) as (Hh & _ & _).
  assert (Hclick : handlers (fst (step ClickAnalyzeVoice s))
                   = [AwaitBase64 (Recorder.metrics (recorder s))]
                   /\ snd (step ClickAnalyzeVoice s) = []).
  { unfold step. rewrite Hen. simpl dispatch.
    simpl in Hen. unfold voiceTab, hasBlob in Hen. unfold handleAnalyze.
    destruct (inputMode s); [|rewrite andb_false_r in Hen; discriminate].
    destruct (Recorder.audioBlob (recorder s));
      [|rewrite andb_false_r in Hen; discriminate].
    simpl. now rewrite Hh. }
  destruct Hclick as [Hc Ho]. cbn [run].
  destruct (step ClickAnalyzeVoice s) as [s1 o1]. simpl in Hc, Ho. subst o1.
  rewrite simple_run_app.
  destruct (encoding_run decodings s1 _ Hc Hdec) as [K1 K2].
  simpl. rewrite filter_app, K2. simpl.
  unfold step. simpl. rewrite K1. simpl. reflexivity.
Qed.

Lemma voice_request_uses_click_time_metrics_witness :
  filter isRequest
    (snd (run (ClickAnalyzeVoice
               :: [DecodeSettle 0 (Some Audio.clip)]
               ++ [Base64Settle 0 (Some (js "GkXfo59C"))])
              (fst (run Scenario.recordedOnce init))))
  = [Request (AnalyzeVoice NoSummary (js "GkXfo59C"))].
Proof.
  apply (voice_request_uses_click_time_metrics Scenario.recordedOnce
           [DecodeSettle 0 (Some Audio.clip)] (js "GkXfo59C"));
    reflexivity.
Defined.

End ClickTimeMetrics.
